(** * spito-gui renderer: event handlers of the auth modal, the
      new-environment wizard and the profile page

    The React components are embedded shallowly.  A component's [useState]
    cells and the DOM values behind its refs form a record; an event handler
    is a computation in ExtLib's state monad over a [World]: the component
    record plus the log of everything the handler did to the outside
    (notices, network calls, callbacks of the parent).  What the outside
    answers (HTTP status codes, [confirm], ...) is read from an [Env]
    record.

    A handler is a closure of the render that created it: the state cells it
    reads are the values of that render, passed as the argument [r], while
    [setX] writes go to the world and refs are read live.  A handler runs
    from its call to its end without another handler in between; an
    [await] is the point where the outside's answer is read. *)

From Stdlib Require Import ZArith String Ascii List Bool Lia.
From ExtLib Require Import Structures.Monad Structures.MonadState.
From ExtLib Require Import Data.Monads.StateMonad.
Import ListNotations.
Import MonadNotation.
Local Open Scope monad_scope.
Local Open Scope string_scope.
Local Open Scope Z_scope.
Local Open Scope list_scope.

(** ** JavaScript values *)
Module JS.

(** Truthiness of a string: only the empty string is falsy. *)
Definition truthy_string (s : string) : bool :=
  negb (String.eqb s "").

(** Truthiness of [x?.value] / of a possibly missing string field:
  [undefined] is falsy. *)
Definition truthy (v : option string) : bool :=
  match v with
  | Some s => truthy_string s
  | None => false
  end.

(** Truthiness of a number (here: integers only): [0] is falsy. *)
Definition truthy_number (n : Z) : bool := negb (n =? 0).

(** [a === b] on two values that are a string or [undefined]. *)
Definition strict_eq (a b : option string) : bool :=
  match a, b with
  | Some x, Some y => String.eqb x y
  | None, None => true
  | _, _ => false
  end.

(** White space as [String.prototype.trim] sees it, on the ASCII range. *)
Definition is_white_space (c : ascii) : bool :=
  let n := nat_of_ascii c in
  (Nat.eqb n 32 || Nat.eqb n 9 || Nat.eqb n 10 || Nat.eqb n 11
   || Nat.eqb n 12 || Nat.eqb n 13)%bool.

(** A string that consists only of white space (the empty one included). *)
Fixpoint only_white_space (s : string) : bool :=
  match s with
  | EmptyString => true
  | String c rest => is_white_space c && only_white_space rest
  end.

(** An input field that is empty or white space only; a field whose
  element is not mounted counts as empty. *)
Definition blank (v : option string) : bool :=
  match v with
  | Some s => only_white_space s
  | None => true
  end.

End JS.

(** ** lib/interfaces *)

(** Modelled from the spec: [UserInfo] of lib/interfaces, "identity summary
  (id, username)". *)
Module UserInfo.
Record t := { id : Z; username : string }.
End UserInfo.

(** Modelled from the spec: [ProfileInterface] of lib/interfaces, "a fetched
  snapshot (username, description, ...)".  A field may be missing from the
  fetched object. *)
Module ProfileInterface.
Record t := { username : option string; description : option string }.
End ProfileInterface.

(** Modelled from the spec: [tagInterface] of lib/interfaces, a label/value
  pair. *)
Module tagInterface.
Record t := { label : string; value : string }.
End tagInterface.

(** ** Effects *)
Module Fx.

(** react-hot-toast: identifiers of notices and their kinds. *)
Definition ToastId := string.
Inductive ToastKind := Loading | Success | Error.

Definition ToastKind_eqb (a b : ToastKind) : bool :=
  match a, b with
  | Loading, Loading | Success, Success | Error, Error => true
  | _, _ => false
  end.

Section World.
Context {S E : Type}.

(** The component's state and the log of its effects, oldest first. *)
Record World := { comp : S; log : list E }.

Definition M := state World.

Definition emit (e : E) : M unit :=
  modify (fun w => {| comp := comp w; log := log w ++ [e] |}) ;;
  ret tt.

(** [setX(f)]: a write to the component's state. *)
Definition setState (f : S -> S) : M unit :=
  modify (fun w => {| comp := f (comp w); log := log w |}) ;;
  ret tt.

(** A live read (a ref's current value). *)
Definition read {A} (f : S -> A) : M A :=
  w <- get ;; ret (f (comp w)).

Definition skip : M unit := ret tt.

(** Running the handler created by the render of [st]: the state after
    it and the log of its effects. *)
Definition fire (h : S -> M unit) (st : S) : S * list E :=
  let w := execState (h st) {| comp := st; log := [] |} in
  (comp w, log w).

End World.
Arguments World : clear implicits.
Arguments M : clear implicits.

End Fx.

(** ** Class names *)
Module Css.

(** The tokens of a [className], split at spaces (the class names of
    these components hold no other white space). *)
Fixpoint tokens_from (cur : string) (s : string) : list string :=
  match s with
  | EmptyString => [cur]
  | String c rest =>
      if Ascii.eqb c " " then cur :: tokens_from "" rest
      else tokens_from (cur ++ String c "") rest
  end.

Definition tokens (s : string) : list string :=
  filter (fun t => negb (String.eqb t "")) (tokens_from "" s).

Definition has_class (c : string) (className : string) : bool :=
  existsb (String.eqb c) (tokens className).

End Css.

(** ** Layout/AuthModal.tsx *)
Module AuthModal.
Import Fx.

Record State := {
  email : string;
  isUserRegistering : bool;
  isTwoFAEnabled : bool;
  twoFACode : string;
  (* [ref.current?.value]; [None] while the input is not mounted *)
  usernameRef : option string;
  passwordRef : option string;
  repeatPasswordRef : option string
}.

Definition initial : State :=
  {| email := ""; isUserRegistering := false; isTwoFAEnabled := false;
   twoFACode := ""; usernameRef := None; passwordRef := None;
   repeatPasswordRef := None |}.

Definition setIsUserRegistering (f : bool -> bool) (s : State) : State :=
  {| email := email s; isUserRegistering := f (isUserRegistering s);
   isTwoFAEnabled := isTwoFAEnabled s; twoFACode := twoFACode s;
   usernameRef := usernameRef s; passwordRef := passwordRef s;
   repeatPasswordRef := repeatPasswordRef s |}.

Definition setIsTwoFAEnabled (b : bool) (s : State) : State :=
  {| email := email s; isUserRegistering := isUserRegistering s;
   isTwoFAEnabled := b; twoFACode := twoFACode s;
   usernameRef := usernameRef s; passwordRef := passwordRef s;
   repeatPasswordRef := repeatPasswordRef s |}.

Definition setTwoFACode (c : string) (s : State) : State :=
  {| email := email s; isUserRegistering := isUserRegistering s;
   isTwoFAEnabled := isTwoFAEnabled s; twoFACode := c;
   usernameRef := usernameRef s; passwordRef := passwordRef s;
   repeatPasswordRef := repeatPasswordRef s |}.

Definition setEmail (e : string) (s : State) : State :=
  {| email := e; isUserRegistering := isUserRegistering s;
   isTwoFAEnabled := isTwoFAEnabled s; twoFACode := twoFACode s;
   usernameRef := usernameRef s; passwordRef := passwordRef s;
   repeatPasswordRef := repeatPasswordRef s |}.

(** The view the JSX renders: [isTwoFAEnabled ? ... : isUserRegistering ?
  ... : ...]. *)
Inductive Mode := Login | Register | TwoFactorChallenge.

Definition mode (s : State) : Mode :=
  if isTwoFAEnabled s then TwoFactorChallenge
  else if isUserRegistering s then Register
  else Login.

Inductive Event :=
  | Toast (k : ToastKind) (msg : string) (id : option ToastId)
  | ToastDismiss (id : ToastId)
  | CallRegister (username : option string) (email : string)
      (password : option string)
  | CallLogin (email : string) (password : option string)
  | CallVerify2FA (email code : string)
  | CallGetUserInfo
  | UpdateUser (info : UserInfo.t)
  | CloseModal.

(** What lib/auth and the notification library answer. *)
Record Env := {
  on_register : option string -> string -> option string -> Z;
  on_login : string -> option string -> Z;
  on_verify2FA : string -> string -> bool;
  on_getUserInfo : option UserInfo.t;
  on_toast_loading : string -> ToastId
}.

Definition is_network_call (e : Event) : bool :=
  match e with
  | CallRegister _ _ _ | CallLogin _ _ | CallVerify2FA _ _ => true
  | _ => false
  end.

Definition is_register_call (e : Event) : bool :=
  match e with CallRegister _ _ _ => true | _ => false end.

Definition is_notice (k : ToastKind) (e : Event) : bool :=
  match e with
  | Toast k' _ _ => ToastKind_eqb k k'
  | _ => false
  end.

Definition is_update_user (e : Event) : bool :=
  match e with UpdateUser _ => true | _ => false end.

Definition is_close_modal (e : Event) : bool :=
  match e with CloseModal => true | _ => false end.

Section Handlers.
Variable env : Env.

Abbreviation M := (Fx.M State Event).

Definition toast_loading (msg : string) : M ToastId :=
  emit (Toast Loading msg None) ;; ret (on_toast_loading env msg).
Definition toast_success (msg : string) (id : option ToastId) : M unit :=
  emit (Toast Success msg id).
Definition toast_error (msg : string) (id : option ToastId) : M unit :=
  emit (Toast Error msg id).
Definition toast_dismiss (id : ToastId) : M unit :=
  emit (ToastDismiss id).

Definition register (u : option string) (e : string) (p : option string)
  : M Z :=
  emit (CallRegister u e p) ;; ret (on_register env u e p).
Definition login (e : string) (p : option string) : M Z :=
  emit (CallLogin e p) ;; ret (on_login env e p).
Definition verify2FA (e c : string) : M bool :=
  emit (CallVerify2FA e c) ;; ret (on_verify2FA env e c).
Definition getUserInfo : M (option UserInfo.t) :=
  emit CallGetUserInfo ;; ret (on_getUserInfo env).
Definition updateUser (info : UserInfo.t) : M unit :=
  emit (UpdateUser info).
Definition closeModal : M unit := emit CloseModal.

Definition changeAuthMethodHandler (r : State) : M unit :=
  setState (setIsUserRegistering negb).

(** [x.current?.value] is [undefined], hence falsy, while [x] is not
    mounted. *)
Definition handleRegister (r : State) : M unit :=
  username <- read usernameRef ;;
  password <- read passwordRef ;;
  repeatPassword <- read repeatPasswordRef ;;
  if negb (JS.truthy username) || negb (JS.truthy_string (email r))
     || negb (JS.truthy password)
  then skip
  else if negb (JS.strict_eq password repeatPassword) then
    toast_error "Passwords do not match" None
  else
    toastId <- toast_loading "Registering..." ;;
    status <- register username (email r) password ;;
    if status =? 201 then
      toast_success "Successfully registered" (Some toastId) ;;
      setState (setIsUserRegistering (fun _ => false))
    else
      toast_error "Failed to register" (Some toastId).

Definition handleLogin (r : State) : M unit :=
  password <- read passwordRef ;;
  if negb (JS.truthy_string (email r)) || negb (JS.truthy password)
  then skip
  else
    toastId <- toast_loading "Logging in..." ;;
    status <- login (email r) password ;;
    if status =? 600 then
      setState (setIsTwoFAEnabled true) ;;
      toast_dismiss toastId
    else if status =? 200 then
      toast_success "Successfully logged in" (Some toastId) ;;
      info <- getUserInfo ;;
      match info with
      | Some i => updateUser i
      | None => skip
      end ;;
      closeModal
    else if status =? 403 then
      toast_error "Wrong email or password!" (Some toastId)
    else
      toast_error "Failed to log in" (Some toastId).

Definition handleAuthCodeState (res : string) (r : State) : M unit :=
  setState (setTwoFACode res).

(** [twoFACode?.length] counts UTF-16 units; the code field only takes
    digits, one unit and one byte each.  [email || ""] is [email]. *)
Definition submit2FA (r : State) : M unit :=
  if negb (Nat.eqb (String.length (twoFACode r)) 6) then skip
  else
    toastId <- toast_loading "Logging in..." ;;
    response <- verify2FA (email r) (twoFACode r) ;;
    if response then
      toast_success "Successfully logged in" (Some toastId) ;;
      info <- getUserInfo ;;
      match info with
      | Some i => updateUser i
      | None => skip
      end ;;
      closeModal
    else skip.

End Handlers.

(** Modelled from the spec: the parent that mounts the modal is not in
  src.  It owns the global session value and the modal's visibility:
  [updateUser] replaces the session value wholesale, [closeModal] closes
  the modal. *)
Record Parent := { session : UserInfo.t; modalOpen : bool }.

Definition parent_event (p : Parent) (e : Event) : Parent :=
  match e with
  | UpdateUser i => {| session := i; modalOpen := modalOpen p |}
  | CloseModal => {| session := session p; modalOpen := false |}
  | _ => p
  end.

Definition parent_after (p : Parent) (l : list Event) : Parent :=
  fold_left parent_event l p.

(** The writes the browser makes to the inputs behind the refs (typing,
    mounting and unmounting with the view). *)
Definition setDom (u p rp : option string) (s : State) : State :=
  {| email := email s; isUserRegistering := isUserRegistering s;
     isTwoFAEnabled := isTwoFAEnabled s; twoFACode := twoFACode s;
     usernameRef := u; passwordRef := p; repeatPasswordRef := rp |}.

(** [onKeyDown={(e) => e.key === "Enter" && handleLogin()}], on the
    password input of the login form and on the repeat-password input of
    the register form alike. *)
Definition onKeyDown (env : Env) (key : string) (r : State)
  : Fx.M State Event unit :=
  if String.eqb key "Enter" then handleLogin env r else skip.

(** Everything the user can do to the modal. *)
Inductive Action :=
| ClickClose
| TypeEmail (e : string)
| Dom (username password repeatPassword : option string)
| KeyDownPassword (key : string)
| KeyDownRepeatPassword (key : string)
| ClickSwitch
| ClickLogin
| ClickRegister
| ChangeCode (res : string)
| ClickSubmitCode.

Definition handler (env : Env) (a : Action) (r : State)
  : Fx.M State Event unit :=
  match a with
  | ClickClose => closeModal
  | TypeEmail e => setState (setEmail e)
  | Dom u p rp => setState (setDom u p rp)
  | KeyDownPassword key => onKeyDown env key r
  | KeyDownRepeatPassword key => onKeyDown env key r
  | ClickSwitch => changeAuthMethodHandler r
  | ClickLogin => handleLogin env r
  | ClickRegister => handleRegister env r
  | ChangeCode res => handleAuthCodeState res r
  | ClickSubmitCode => submit2FA env r
  end.

(** A run of the modal: each action with what the outside answers during
    it; the state after the last one. *)
Fixpoint run (steps : list (Env * Action)) (s : State) : State :=
  match steps with
  | [] => s
  | (env, a) :: rest => run rest (fst (fire (handler env a) s))
  end.


End AuthModal.


(** ** The settings sidebar (SettingsSidebar) *)
Module SettingsSidebar.

(** [currentPageType] is a union of string literals; a page is its
    string. *)
Definition tabClasses (page tab : string) : string :=
  "text-2xl h-full font-roboto flex items-center justify-center transition-colors duration-300 gap-2 w-full rounded-lg px-2 py-1 cursor-pointer "
  ++ (if String.eqb page tab then "bg-bgLight text-sky-400"
      else "bg-transparent text-gray-400 hover:bg-bgLight").

(** The tabs of the JSX, top to bottom; each one's [onClick] is
    [setPage] of its own name. *)
Definition tabs : list string := ["about"; "tokens"; "2fa"; "changePassword"].

(** The tabs drawn in the highlight colour. *)
Definition highlighted (page : string) : list string :=
  filter (fun tab => Css.has_class "text-sky-400" (tabClasses page tab)) tabs.

End SettingsSidebar.


(** ** The new-environment wizard (NewEnviroment) *)
Module NewEnviroment.

Record State := {
  stage : Z;
  enviromentName : string;
  tags : list tagInterface.t;
  isPrivate : bool;
  (* the value of the description textarea, kept by the DOM *)
  descriptionRef : string
}.

(** The [useState] defaults. *)
Definition initial : State :=
  {| stage := 1; enviromentName := ""; tags := []; isPrivate := false;
     descriptionRef := "" |}.

Definition setStage (f : Z -> Z) (s : State) : State :=
  {| stage := f (stage s); enviromentName := enviromentName s;
     tags := tags s; isPrivate := isPrivate s;
     descriptionRef := descriptionRef s |}.

Definition setEnviromentName (n : string) (s : State) : State :=
  {| stage := stage s; enviromentName := n; tags := tags s;
     isPrivate := isPrivate s; descriptionRef := descriptionRef s |}.

Definition setTags (t : list tagInterface.t) (s : State) : State :=
  {| stage := stage s; enviromentName := enviromentName s; tags := t;
     isPrivate := isPrivate s; descriptionRef := descriptionRef s |}.

Definition setIsPrivate (f : bool -> bool) (s : State) : State :=
  {| stage := stage s; enviromentName := enviromentName s; tags := tags s;
     isPrivate := f (isPrivate s); descriptionRef := descriptionRef s |}.

Definition setDescription (d : string) (s : State) : State :=
  {| stage := stage s; enviromentName := enviromentName s; tags := tags s;
     isPrivate := isPrivate s; descriptionRef := d |}.

(** [formSubmitHandler] has an empty body. *)
Definition formSubmitHandler (s : State) : State := s.

(** What the user can do to the rendered wizard. *)
Inductive Op :=
| Indicator1 | Indicator2 | Indicator3
| Back | Next | Create
| TypeName (n : string)
| TogglePrivate
| TypeDescription (d : string)
| ChangeTags (t : list tagInterface.t).

(** The control of an operation is part of the render of [s]: the three
    indicators always, Back under [stage !== 1], Next under [stage !== 3]
    and Create in its place otherwise, each stage's fields under
    [stage === n]. *)
Definition available (s : State) (o : Op) : bool :=
  match o with
  | Indicator1 | Indicator2 | Indicator3 => true
  | Back => negb (stage s =? 1)
  | Next => negb (stage s =? 3)
  | Create => negb (negb (stage s =? 3))
  | TypeName _ | TogglePrivate => stage s =? 1
  | TypeDescription _ => stage s =? 2
  | ChangeTags _ => stage s =? 3
  end.

(** The [onClick] / [onChange] of each control. *)
Definition step (o : Op) (s : State) : State :=
  match o with
  | Indicator1 => setStage (fun _ => 1) s
  | Indicator2 => setStage (fun _ => 2) s
  | Indicator3 => setStage (fun _ => 3) s
  | Back => setStage (fun prev => prev - 1) s
  | Next => setStage (fun prev => prev + 1) s
  | Create => formSubmitHandler s
  | TypeName n => setEnviromentName n s
  | TogglePrivate => setIsPrivate negb s
  | TypeDescription d => setDescription d s
  | ChangeTags t => setTags t s
  end.

(** A sequence of operations, each one available when its turn comes;
    [None] when one of them is not. *)
Fixpoint run (ops : list Op) (s : State) : option State :=
  match ops with
  | [] => Some s
  | o :: rest => if available s o then run rest (step o s) else None
  end.



(** The colour class of the stage indicators 1, 2, 3 and of the bars
    between them. *)
Definition indicator1 (s : State) : string := "bg-sky-600".
Definition bar12 (s : State) : string :=
  if stage s >=? 2 then "bg-sky-600" else "bg-borderGray".
Definition indicator2 (s : State) : string :=
  if stage s >=? 2 then "bg-sky-600" else "bg-borderGray".
Definition bar23 (s : State) : string :=
  if stage s =? 3 then "bg-sky-600" else "bg-borderGray".
Definition indicator3 (s : State) : string :=
  if stage s =? 3 then "bg-sky-600" else "bg-borderGray".



End NewEnviroment.


(** ** The profile page (Profile) *)
Module Profile.
Import Fx.

Definition Blob := list Byte.byte.

Inductive site := Main | Rules | Rulesets | Enviroments.

Record State := {
  userData : option ProfileInterface.t;
  currentSite : site;
  isUserChangingSettings : bool;
  isUserAddingContent : bool;
  isUserChangingAvatar : bool;
  avatarUrl : string;
  avatarBlob : option Blob;
  (* the value of each ref's element; [None] while it is not mounted *)
  usernameRef : option string;
  descriptionRef : option string;
  avatarInputRef : option string
}.

(** The [useState] defaults; nothing of the edit form is mounted. *)
Definition initial : State :=
  {| userData := None; currentSite := Main; isUserChangingSettings := false;
     isUserAddingContent := false; isUserChangingAvatar := false;
     avatarUrl := ""; avatarBlob := None; usernameRef := None;
     descriptionRef := None; avatarInputRef := Some "" |}.

Definition setUserData (d : ProfileInterface.t) (s : State) : State :=
  {| userData := Some d; currentSite := currentSite s;
     isUserChangingSettings := isUserChangingSettings s;
     isUserAddingContent := isUserAddingContent s;
     isUserChangingAvatar := isUserChangingAvatar s;
     avatarUrl := avatarUrl s; avatarBlob := avatarBlob s;
     usernameRef := usernameRef s; descriptionRef := descriptionRef s;
     avatarInputRef := avatarInputRef s |}.

Definition setSite (t : site) (s : State) : State :=
  {| userData := userData s; currentSite := t;
     isUserChangingSettings := isUserChangingSettings s;
     isUserAddingContent := isUserAddingContent s;
     isUserChangingAvatar := isUserChangingAvatar s;
     avatarUrl := avatarUrl s; avatarBlob := avatarBlob s;
     usernameRef := usernameRef s; descriptionRef := descriptionRef s;
     avatarInputRef := avatarInputRef s |}.

Definition setIsUserChangingSettings (b : bool) (s : State) : State :=
  {| userData := userData s; currentSite := currentSite s;
     isUserChangingSettings := b;
     isUserAddingContent := isUserAddingContent s;
     isUserChangingAvatar := isUserChangingAvatar s;
     avatarUrl := avatarUrl s; avatarBlob := avatarBlob s;
     usernameRef := usernameRef s; descriptionRef := descriptionRef s;
     avatarInputRef := avatarInputRef s |}.

Definition setIsUserAddingContent (b : bool) (s : State) : State :=
  {| userData := userData s; currentSite := currentSite s;
     isUserChangingSettings := isUserChangingSettings s;
     isUserAddingContent := b;
     isUserChangingAvatar := isUserChangingAvatar s;
     avatarUrl := avatarUrl s; avatarBlob := avatarBlob s;
     usernameRef := usernameRef s; descriptionRef := descriptionRef s;
     avatarInputRef := avatarInputRef s |}.

Definition setIsUserChangingAvatar (b : bool) (s : State) : State :=
  {| userData := userData s; currentSite := currentSite s;
     isUserChangingSettings := isUserChangingSettings s;
     isUserAddingContent := isUserAddingContent s;
     isUserChangingAvatar := b;
     avatarUrl := avatarUrl s; avatarBlob := avatarBlob s;
     usernameRef := usernameRef s; descriptionRef := descriptionRef s;
     avatarInputRef := avatarInputRef s |}.

Definition setAvatarUrl (u : string) (s : State) : State :=
  {| userData := userData s; currentSite := currentSite s;
     isUserChangingSettings := isUserChangingSettings s;
     isUserAddingContent := isUserAddingContent s;
     isUserChangingAvatar := isUserChangingAvatar s;
     avatarUrl := u; avatarBlob := avatarBlob s;
     usernameRef := usernameRef s; descriptionRef := descriptionRef s;
     avatarInputRef := avatarInputRef s |}.

Definition setAvatarBlob (b : option Blob) (s : State) : State :=
  {| userData := userData s; currentSite := currentSite s;
     isUserChangingSettings := isUserChangingSettings s;
     isUserAddingContent := isUserAddingContent s;
     isUserChangingAvatar := isUserChangingAvatar s;
     avatarUrl := avatarUrl s; avatarBlob := b;
     usernameRef := usernameRef s; descriptionRef := descriptionRef s;
     avatarInputRef := avatarInputRef s |}.

(** [avatarInputRef.current.value = v], when the input is mounted. *)
Definition setAvatarInputValue (v : string) (s : State) : State :=
  {| userData := userData s; currentSite := currentSite s;
     isUserChangingSettings := isUserChangingSettings s;
     isUserAddingContent := isUserAddingContent s;
     isUserChangingAvatar := isUserChangingAvatar s;
     avatarUrl := avatarUrl s; avatarBlob := avatarBlob s;
     usernameRef := usernameRef s; descriptionRef := descriptionRef s;
     avatarInputRef :=
       match avatarInputRef s with Some _ => Some v | None => None end |}.

(** The browser and React acting on the DOM: the edit form is mounted,
    unmounted, typed into. *)
Definition setDom (u d : option string) (s : State) : State :=
  {| userData := userData s; currentSite := currentSite s;
     isUserChangingSettings := isUserChangingSettings s;
     isUserAddingContent := isUserAddingContent s;
     isUserChangingAvatar := isUserChangingAvatar s;
     avatarUrl := avatarUrl s; avatarBlob := avatarBlob s;
     usernameRef := u; descriptionRef := d;
     avatarInputRef := avatarInputRef s |}.

(** [userData?.username] and [userData?.description]. *)
Definition snapshot_username (s : State) : option string :=
  match userData s with
  | Some d => ProfileInterface.username d
  | None => None
  end.

Definition snapshot_description (s : State) : option string :=
  match userData s with
  | Some d => ProfileInterface.description d
  | None => None
  end.

(** [!!avatarBlob]: a Blob is an object, truthy whenever present. *)
Definition has_blob (s : State) : bool :=
  match avatarBlob s with Some _ => true | None => false end.

Inductive Event :=
| Toast (k : ToastKind) (msg : string) (id : option ToastId)
| Confirm (msg : string)
| CallGetUserProfile (userId : Z)
| CallUpdateSettings (username description : string)
| CallUpdateAvatar (fileName fileType : string) (data : Blob).

(** A file picked in the avatar input. *)
Record PickedFile := { file_type : string; file_url : string }.

(** What lib/user, the browser and the notification library answer. *)
Record Env := {
  userId : Z;
  on_getUserProfile : Z -> ProfileInterface.t;
  on_updateSettings : string -> string -> bool;
  on_updateAvatar : Blob -> bool;
  on_confirm : string -> bool;
  on_toast_loading : string -> ToastId;
  (* whether the crop editor behind [newAvatarRef] is mounted *)
  newAvatarRef : bool;
  (* what [canvas.toBlob] yields, with the object URL made for it *)
  on_toBlob : option (Blob * string)
}.

Definition is_network_call (e : Event) : bool :=
  match e with
  | CallGetUserProfile _ | CallUpdateSettings _ _ | CallUpdateAvatar _ _ _ =>
      true
  | _ => false
  end.

Definition is_avatar_upload (e : Event) : bool :=
  match e with CallUpdateAvatar _ _ _ => true | _ => false end.

Definition is_notice (k : ToastKind) (e : Event) : bool :=
  match e with
  | Toast k' _ _ => ToastKind_eqb k k'
  | _ => false
  end.

Definition is_any_notice (e : Event) : bool :=
  match e with Toast _ _ _ => true | _ => false end.

Section Handlers.
Variable env : Env.

Abbreviation M := (Fx.M State Event).

Definition toast_loading (msg : string) : M ToastId :=
  emit (Toast Loading msg None) ;; ret (on_toast_loading env msg).
Definition toast_success (msg : string) (id : option ToastId) : M unit :=
  emit (Toast Success msg id).
Definition toast_error (msg : string) (id : option ToastId) : M unit :=
  emit (Toast Error msg id).
Definition confirm (msg : string) : M bool :=
  emit (Confirm msg) ;; ret (on_confirm env msg).

Definition getUserProfile (id : Z) : M ProfileInterface.t :=
  emit (CallGetUserProfile id) ;; ret (on_getUserProfile env id).
Definition updateSettings (username description : string) : M bool :=
  emit (CallUpdateSettings username description) ;;
  ret (on_updateSettings env username description).
Definition updateAvatar (fileName fileType : string) (data : Blob) : M bool :=
  emit (CallUpdateAvatar fileName fileType data) ;;
  ret (on_updateAvatar env data).

(** The effect on [loggedUserData]: leaving edit mode on logout. *)
Definition loggedUserDataEffect (loggedUserData : UserInfo.t) (r : State)
  : M unit :=
  if negb (JS.truthy_number (UserInfo.id loggedUserData)) then
    setState (setIsUserChangingSettings false)
  else skip.

Definition fetchData (r : State) : M unit :=
  data <- getUserProfile (userId env) ;;
  if JS.truthy (ProfileInterface.username data) then
    setState (setUserData data)
  else skip.

Definition discard_prompt : string :=
  "You have unsaved changes! Do you want to close settings? Unsaved changes will be lost.".

Definition handleReactingWithSettings (r : State) : M unit :=
  if negb (isUserChangingSettings r) then
    setState (setIsUserChangingSettings true)
  else
    usernameEl <- read usernameRef ;;
    descriptionEl <- read descriptionRef ;;
    match usernameEl, descriptionEl with
    | Some username, Some description =>
        if JS.strict_eq (Some username) (snapshot_username r)
           && JS.strict_eq (Some description) (snapshot_description r)
           && negb (has_blob r)
        then setState (setIsUserChangingSettings false)
        else
          ok <- confirm discard_prompt ;;
          if ok then
            setState (setAvatarBlob None) ;;
            setState (setIsUserChangingSettings false)
          else skip
    | _, _ => skip
    end.

Definition handleAvatarChange (r : State) : M unit :=
  match avatarBlob r with
  | None => skip
  | Some blob =>
      avatarStatusOk <- updateAvatar "avatar.png" "image/png" blob ;;
      if avatarStatusOk then toast_success "Avatar updated succesfully" None
      else toast_error "Failed to save avatar" None
  end.

(** [handleAvatarChange()] and [fetchData()] are started without [await];
    they are run here to their end at the place of the call, so the log
    keeps the order in which the calls are issued, not the order in which
    the notices of the two uploads appear. *)
Definition handleSaveSettings (r : State) : M unit :=
  usernameEl <- read usernameRef ;;
  descriptionEl <- read descriptionRef ;;
  match usernameEl, descriptionEl with
  | Some username, Some description =>
      if String.eqb username "" then
        toast_error "Username can't be empty!" None
      else if JS.strict_eq (Some description) (snapshot_description r)
              && JS.strict_eq (Some username) (snapshot_username r)
              && negb (has_blob r)
      then setState (setIsUserChangingSettings false)
      else
        toastId <- toast_loading "Updating..." ;;
        isSettingsStatusOk <- updateSettings username description ;;
        (if has_blob r then handleAvatarChange r else skip) ;;
        if isSettingsStatusOk then
          toast_success "Settings saved!" (Some toastId) ;;
          fetchData r ;;
          setState (setIsUserChangingSettings false)
        else
          toast_error "Failed to save settings!" (Some toastId)
  | _, _ => skip
  end.

Definition handleAddingContent (r : State) : M unit :=
  setState (setIsUserAddingContent (negb (isUserAddingContent r))).

Definition clearFileInput : M unit :=
  setState (setAvatarInputValue "").

Definition handleUserChaningAvatar (r : State) : M unit :=
  setState (setIsUserChangingAvatar (negb (isUserChangingAvatar r))) ;;
  clearFileInput.

(** [canvas.toBlob] calls back later, with the blob or with nothing; the
    callback (the first two writes) is run in place. *)
Definition saveAvatarImage (r : State) : M unit :=
  if negb (newAvatarRef env) then skip
  else
    match on_toBlob env with
    | None => skip
    | Some (blob, url) =>
        setState (setAvatarUrl url) ;;
        setState (setAvatarBlob (Some blob))
    end ;;
    clearFileInput ;;
    setState (setIsUserChangingAvatar false).

Definition uploadAvatar (file : option PickedFile) (r : State) : M unit :=
  match file with
  | None => skip
  | Some f =>
      if negb (String.eqb (file_type f) "image/png")
         && negb (String.eqb (file_type f) "image/jpeg")
      then
        toast_error "Only .png and .jpeg files are allowed!" None ;;
        clearFileInput
      else
        setState (setAvatarUrl (file_url f)) ;;
        setState (setIsUserChangingAvatar true)
  end.

End Handlers.

(** Everything that can happen to the mounted page. *)
Inductive Action :=
| Mount
| LoggedUserDataChanged (u : UserInfo.t)
| ClickSettings
| ClickSave
| ClickTab (t : site)
| ClickAddContent
| CloseAvatarEditor
| ConfirmCrop
| PickFile (f : option PickedFile)
| Dom (username description : option string).

Definition handler (env : Env) (a : Action) (r : State) : Fx.M State Event unit :=
  match a with
  | Mount => fetchData env r
  | LoggedUserDataChanged u => loggedUserDataEffect u r
  | ClickSettings => handleReactingWithSettings env r
  | ClickSave => handleSaveSettings env r
  | ClickTab t => setState (setSite t)
  | ClickAddContent => handleAddingContent r
  | CloseAvatarEditor => handleUserChaningAvatar r
  | ConfirmCrop => saveAvatarImage env r
  | PickFile f => uploadAvatar f r
  | Dom u d => setState (setDom u d)
  end.

(** The states the page can be in: from the defaults, by any actions,
    whatever the outside answers to each. *)
Inductive reachable : State -> Prop :=
| reachable_initial : reachable initial
| reachable_step : forall env a st,
    reachable st -> reachable (fst (fire (handler env a) st)).

(** The snapshot, when there is one, carries a truthy username. *)
Definition snapshot_named (s : State) : bool :=
  match userData s with
  | Some d => JS.truthy (ProfileInterface.username d)
  | None => true
  end.

Definition site_eqb (a b : site) : bool :=
  match a, b with
  | Main, Main | Rules, Rules | Rulesets, Rulesets
  | Enviroments, Enviroments => true
  | _, _ => false
  end.

Definition tabClasses (current tab : site) : string :=
  "font-roboto transition-all px-8 py-2 w-full border-b-2 flex items-center gap-2 justify-center "
  ++ (if site_eqb current tab then "text-gray-300 border-sky-400"
      else "text-gray-400 cursor-pointer hover:border-sky-700 border-bgLight hover:bg-bgLight").

(** The [className] of each tab of the JSX: the outer two get a rounded
    corner. *)
Definition tab_className (current tab : site) : string :=
  tabClasses current tab
  ++ match tab with
     | Main => " rounded-tl-lg"
     | Enviroments => " rounded-tr-lg"
     | _ => ""
     end.

Definition tabs : list site := [Main; Rules; Rulesets; Enviroments].

(** The tabs underlined in the highlight colour. *)
Definition highlighted (current : site) : list site :=
  filter (fun tab => Css.has_class "border-sky-400" (tab_className current tab))
    tabs.

Definition is_update_call (e : Event) : bool :=
  match e with
  | CallUpdateSettings _ _ | CallUpdateAvatar _ _ _ => true
  | _ => false
  end.

Definition is_settings_update (e : Event) : bool :=
  match e with CallUpdateSettings _ _ => true | _ => false end.

Definition is_save (a : Action) : bool :=
  match a with ClickSave => true | _ => false end.

Definition is_fetching (a : Action) : bool :=
  match a with Mount | ClickSave => true | _ => false end.

Definition is_crop (a : Action) : bool :=
  match a with ConfirmCrop => true | _ => false end.

End Profile.

(** ** Sample inputs *)
Module Samples.

Definition ann : UserInfo.t := {| UserInfo.id := 7; UserInfo.username := "ann" |}.
Definition nobody : UserInfo.t := {| UserInfo.id := 0; UserInfo.username := "" |}.

(** A server that answers every login with [status]. *)
Definition auth_env (status : Z) (code_ok : bool) (info : option UserInfo.t)
  : AuthModal.Env :=
  {| AuthModal.on_register := fun _ _ _ => 201;
     AuthModal.on_login := fun _ _ => status;
     AuthModal.on_verify2FA := fun _ _ => code_ok;
     AuthModal.on_getUserInfo := info;
     AuthModal.on_toast_loading := fun _ => "t1" |}.

Definition login_form (email : string) (password : option string)
  : AuthModal.State :=
  {| AuthModal.email := email; AuthModal.isUserRegistering := false;
     AuthModal.isTwoFAEnabled := false; AuthModal.twoFACode := "";
     AuthModal.usernameRef := None; AuthModal.passwordRef := password;
     AuthModal.repeatPasswordRef := None |}.

Definition register_form (username : option string) (email : string)
  (password repeatPassword : option string) : AuthModal.State :=
  {| AuthModal.email := email; AuthModal.isUserRegistering := true;
     AuthModal.isTwoFAEnabled := false; AuthModal.twoFACode := "";
     AuthModal.usernameRef := username; AuthModal.passwordRef := password;
     AuthModal.repeatPasswordRef := repeatPassword |}.

Definition code_form (email code : string) : AuthModal.State :=
  {| AuthModal.email := email; AuthModal.isUserRegistering := false;
     AuthModal.isTwoFAEnabled := true; AuthModal.twoFACode := code;
     AuthModal.usernameRef := None; AuthModal.passwordRef := None;
     AuthModal.repeatPasswordRef := None |}.

Definition logged_out : AuthModal.Parent :=
  {| AuthModal.session := nobody; AuthModal.modalOpen := true |}.

Definition ann_profile : ProfileInterface.t :=
  {| ProfileInterface.username := Some "ann";
     ProfileInterface.description := Some "hi" |}.

(** A server that knows [ann_profile] and answers every update with [ok];
    the user answers the discard prompt with [yes]. *)
Definition profile_env (ok yes : bool) : Profile.Env :=
  {| Profile.userId := 7;
     Profile.on_getUserProfile := fun _ => ann_profile;
     Profile.on_updateSettings := fun _ _ => ok;
     Profile.on_updateAvatar := fun _ => ok;
     Profile.on_confirm := fun _ => yes;
     Profile.on_toast_loading := fun _ => "t1";
     Profile.newAvatarRef := true;
     Profile.on_toBlob := Some ([Byte.x89; Byte.x50], "blob:1") |}.

(** The page after mounting, opening the settings and typing [username]
    and [description] into the form. *)
Definition editing (username description : string) : Profile.State :=
  fst (Fx.fire
         (Profile.handler (profile_env true true)
            (Profile.Dom (Some username) (Some description)))
         (fst (Fx.fire
                 (Profile.handler (profile_env true true)
                    Profile.ClickSettings)
                 (fst (Fx.fire
                         (Profile.handler (profile_env true true)
                            Profile.Mount)
                         Profile.initial))))).

(** The same, with an avatar cropped and waiting for upload. *)
Definition editing_with_avatar (username description : string)
  : Profile.State :=
  fst (Fx.fire
         (Profile.handler (profile_env true true) Profile.ConfirmCrop)
         (editing username description)).

Definition gif : Profile.PickedFile :=
  {| Profile.file_type := "image/gif"; Profile.file_url := "blob:gif" |}.

Definition png : Profile.PickedFile :=
  {| Profile.file_type := "image/png"; Profile.file_url := "blob:png" |}.

End Samples.

(** * Properties *)

(** ** The auth modal *)
Module AuthModalSpec.
Import Fx AuthModal Samples.

Ltac run_handler h :=
  unfold fire, h, StateMonad.execState; cbn.

(** What one call of [handleLogin] does, branch by branch. *)
Lemma handleLogin_fire env st :
  fire (handleLogin env) st =
  if negb (JS.truthy_string (email st)) || negb (JS.truthy (passwordRef st))
  then (st, [])
  else
    let id := on_toast_loading env "Logging in..." in
    let status := on_login env (email st) (passwordRef st) in
    let called := [Toast Loading "Logging in..." None;
                   CallLogin (email st) (passwordRef st)] in
    if status =? 600 then
      (setIsTwoFAEnabled true st, called ++ [ToastDismiss id])
    else if status =? 200 then
      (st, called ++ [Toast Success "Successfully logged in" (Some id);
                      CallGetUserInfo]
             ++ match on_getUserInfo env with
                | Some i => [UpdateUser i]
                | None => []
                end ++ [CloseModal])
    else if status =? 403 then
      (st, called ++ [Toast Error "Wrong email or password!" (Some id)])
    else
      (st, called ++ [Toast Error "Failed to log in" (Some id)]).
Proof.
  run_handler handleLogin.
  destruct (negb (JS.truthy_string (email st))
            || negb (JS.truthy (passwordRef st))); [reflexivity|].
  cbn. destruct (on_login env (email st) (passwordRef st) =? 600);
    [reflexivity|].
  destruct (on_login env (email st) (passwordRef st) =? 200).
  - cbn. destruct (on_getUserInfo env); reflexivity.
  - destruct (on_login env (email st) (passwordRef st) =? 403); reflexivity.
Qed.

(** What one call of [handleRegister] does, branch by branch. *)
Lemma handleRegister_fire env st :
  fire (handleRegister env) st =
  if negb (JS.truthy (usernameRef st)) || negb (JS.truthy_string (email st))
     || negb (JS.truthy (passwordRef st))
  then (st, [])
  else if negb (JS.strict_eq (passwordRef st) (repeatPasswordRef st))
  then (st, [Toast Error "Passwords do not match" None])
  else
    let id := on_toast_loading env "Registering..." in
    let called := [Toast Loading "Registering..." None;
                   CallRegister (usernameRef st) (email st) (passwordRef st)]
    in
    if on_register env (usernameRef st) (email st) (passwordRef st) =? 201
    then (setIsUserRegistering (fun _ => false) st,
          called ++ [Toast Success "Successfully registered" (Some id)])
    else (st, called ++ [Toast Error "Failed to register" (Some id)]).
Proof.
  run_handler handleRegister.
  destruct (negb (JS.truthy (usernameRef st))
            || negb (JS.truthy_string (email st))
            || negb (JS.truthy (passwordRef st))); [reflexivity|].
  destruct (negb (JS.strict_eq (passwordRef st) (repeatPasswordRef st)));
    [reflexivity|].
  cbn.
  destruct (on_register env (usernameRef st) (email st) (passwordRef st)
            =? 201); reflexivity.
Qed.

(** What one call of [submit2FA] does, branch by branch. *)
Lemma submit2FA_fire env st :
  fire (submit2FA env) st =
  if negb (Nat.eqb (String.length (twoFACode st)) 6) then (st, [])
  else
    let id := on_toast_loading env "Logging in..." in
    let called := [Toast Loading "Logging in..." None;
                   CallVerify2FA (email st) (twoFACode st)] in
    if on_verify2FA env (email st) (twoFACode st) then
      (st, called ++ [Toast Success "Successfully logged in" (Some id);
                      CallGetUserInfo]
             ++ match on_getUserInfo env with
                | Some i => [UpdateUser i]
                | None => []
                end ++ [CloseModal])
    else (st, called).
Proof.
  run_handler submit2FA.
  destruct (negb (Nat.eqb (String.length (twoFACode st)) 6)); [reflexivity|].
  cbn. destruct (on_verify2FA env (email st) (twoFACode st)); [|reflexivity].
  cbn. destruct (on_getUserInfo env); reflexivity.
Qed.

Lemma truthy_string_false s : JS.truthy_string s = false <-> s = "".
Proof.
  unfold JS.truthy_string. rewrite negb_false_iff. apply String.eqb_eq.
Qed.

Lemma truthy_false v : JS.truthy v = false <-> v = None \/ v = Some "".
Proof.
  destruct v as [s|]; cbn.
  - rewrite truthy_string_false. split.
    + intros ->. now right.
    + intros [H|H]; [discriminate | now injection H].
  - split; auto.
Qed.

Lemma strict_eq_true a b : JS.strict_eq a b = true <-> a = b.
Proof.
  destruct a as [x|], b as [y|]; cbn; try (split; (discriminate || reflexivity)).
  rewrite String.eqb_eq. split; [now intros -> | now intros [= ->]].
Qed.

Lemma strict_eq_false a b : JS.strict_eq a b = false <-> a <> b.
Proof.
  rewrite <- strict_eq_true. destruct (JS.strict_eq a b); split; congruence.
Qed.

(** A login call in the log is the one for the form's own fields, and both
    were filled in. *)
Lemma login_called_inv env st e p :
  In (CallLogin e p) (snd (fire (handleLogin env) st)) ->
  e = email st /\ p = passwordRef st /\
  negb (JS.truthy_string (email st)) || negb (JS.truthy (passwordRef st))
  = false.
Proof.
  rewrite handleLogin_fire.
  destruct (negb (JS.truthy_string (email st))
            || negb (JS.truthy (passwordRef st))); cbn; [tauto|].
  destruct (on_login env (email st) (passwordRef st) =? 600);
    [|destruct (on_login env (email st) (passwordRef st) =? 200);
      [|destruct (on_login env (email st) (passwordRef st) =? 403)]];
    cbn; intros [H|[H|H]]; try discriminate H;
    try (injection H as <- <-; auto).
  - destruct H as [H|[]]; discriminate H.
  - destruct H as [H|H]; [discriminate H|].
    destruct (on_getUserInfo env); cbn in H;
      repeat (destruct H as [H|H]; try discriminate H); destruct H.
  - destruct H as [H|[]]; discriminate H.
  - destruct H as [H|[]]; discriminate H.
Qed.

(** C1 as stated fails on white space: a password (for login) or a
    username (for register) of one space is white space only, and the
    network call is issued all the same, carrying that very value. *)
Lemma whitespace_fields_reach_the_network :
  let env := auth_env 200 true (Some ann) in
  let st := login_form "a@b.c" (Some " ") in
  let st' := register_form (Some " ") "a@b.c" (Some "p") (Some "p") in
  (JS.blank (passwordRef st) = true /\
   existsb is_network_call (snd (fire (handleLogin env) st)) = true /\
   snd (fire (handleLogin env) st) =
     [Toast Loading "Logging in..." None;
      CallLogin "a@b.c" (Some " ");
      Toast Success "Successfully logged in" (Some "t1");
      CallGetUserInfo; UpdateUser ann; CloseModal]) /\
  (JS.blank (usernameRef st') = true /\
   existsb is_network_call (snd (fire (handleRegister env) st')) = true /\
   snd (fire (handleRegister env) st') =
     [Toast Loading "Registering..." None;
      CallRegister (Some " ") "a@b.c" (Some "p");
      Toast Success "Successfully registered" (Some "t1")]).
Proof. cbv zeta. repeat split. Qed.

(** C1, amended: when a field the operation requires is empty (the email
    or the password for [handleLogin]; the username, the email or the
    password for [handleRegister]; an input that is not mounted counts as
    empty), the handler returns at once: the state is unchanged and nothing
    is logged, so no network call is issued. *)
Theorem empty_field_no_network_call env st :
  (email st = "" \/ passwordRef st = None \/ passwordRef st = Some "" ->
   fire (handleLogin env) st = (st, [])) /\
  (usernameRef st = None \/ usernameRef st = Some "" \/ email st = "" \/
   passwordRef st = None \/ passwordRef st = Some "" ->
   fire (handleRegister env) st = (st, [])).
Proof.
  split; intros H.
  - rewrite handleLogin_fire.
    assert (G : negb (JS.truthy_string (email st))
                || negb (JS.truthy (passwordRef st)) = true).
    { apply orb_true_iff. rewrite !negb_true_iff.
      rewrite truthy_string_false, truthy_false. tauto. }
    now rewrite G.
  - rewrite handleRegister_fire.
    assert (G : negb (JS.truthy (usernameRef st))
                || negb (JS.truthy_string (email st))
                || negb (JS.truthy (passwordRef st)) = true).
    { rewrite !orb_true_iff, !negb_true_iff.
      rewrite truthy_string_false, !truthy_false. tauto. }
    now rewrite G.
Qed.

Lemma empty_field_no_network_call_witness :
  fire (handleLogin (auth_env 200 true (Some ann))) (login_form "" (Some "pw"))
  = (login_form "" (Some "pw"), []) /\
  fire (handleRegister (auth_env 200 true (Some ann)))
       (register_form (Some "") "a@b.c" (Some "p") (Some "p"))
  = (register_form (Some "") "a@b.c" (Some "p") (Some "p"), []).
Proof.
  split.
  - apply (proj1 (empty_field_no_network_call _ (login_form "" (Some "pw")))).
    left. reflexivity.
  - apply (proj2 (empty_field_no_network_call _
             (register_form (Some "") "a@b.c" (Some "p") (Some "p")))).
    right. left. reflexivity.
Defined.

(** C2 as stated fails: with an empty username the first guard returns
    before the passwords are compared, so differing passwords show no
    notice at all. *)
Lemma mismatch_with_empty_username_is_silent :
  let env := auth_env 200 true (Some ann) in
  let st := register_form (Some "") "a@b.c" (Some "p") (Some "q") in
  passwordRef st <> repeatPasswordRef st /\
  fire (handleRegister env) st = (st, []) /\
  ~ In (Toast Error "Passwords do not match" None)
       (snd (fire (handleRegister env) st)).
Proof.
  cbv zeta. split; [discriminate|]. split; [reflexivity|]. intros [].
Qed.

(** C2, amended: when the password differs from the repeated password the
    register operation is never called; the mismatch notice is shown
    exactly when the username, the email and the password are all
    non-empty, and in that case it is the only effect; otherwise the
    handler returns silently.  The state is unchanged either way. *)
Theorem mismatch_never_registers env st :
  passwordRef st <> repeatPasswordRef st ->
  existsb is_register_call (snd (fire (handleRegister env) st)) = false /\
  fire (handleRegister env) st =
    (st,
     if JS.truthy (usernameRef st) && JS.truthy_string (email st)
        && JS.truthy (passwordRef st)
     then [Toast Error "Passwords do not match" None]
     else []).
Proof.
  intros H. apply strict_eq_false in H.
  rewrite handleRegister_fire, H.
  destruct (JS.truthy (usernameRef st)), (JS.truthy_string (email st)),
    (JS.truthy (passwordRef st)); cbn; auto.
Qed.

Lemma mismatch_never_registers_witness :
  existsb is_register_call
    (snd (fire (handleRegister (auth_env 200 true (Some ann)))
            (register_form (Some "ann") "a@b.c" (Some "p") (Some "q"))))
  = false /\
  fire (handleRegister (auth_env 200 true (Some ann)))
       (register_form (Some "ann") "a@b.c" (Some "p") (Some "q"))
  = (register_form (Some "ann") "a@b.c" (Some "p") (Some "q"),
     [Toast Error "Passwords do not match" None]).
Proof.
  apply (mismatch_never_registers (auth_env 200 true (Some ann))
           (register_form (Some "ann") "a@b.c" (Some "p") (Some "q"))).
  cbn. discriminate.
Defined.

(** C3 as stated fails when [getUserInfo] yields nothing: the login
    answers 200, [updateUser] is not called, and the session value stays
    what it was, while the modal is closed. *)
Lemma login_ok_without_user_info_keeps_session :
  let env := auth_env 200 true None in
  let st := login_form "a@b.c" (Some "pw") in
  let l := snd (fire (handleLogin env) st) in
  In (CallLogin "a@b.c" (Some "pw")) l /\
  on_login env "a@b.c" (Some "pw") = 200 /\
  existsb is_update_user l = false /\
  parent_after logged_out l = {| session := nobody; modalOpen := false |} /\
  on_getUserInfo env <> Some (session (parent_after logged_out l)).
Proof.
  cbv zeta. split; [cbn; tauto|]. repeat split. discriminate.
Qed.

(** C3, amended: whenever [handleLogin] issues the login call and receives
    status 200, the modal is closed; the session value becomes the
    UserInfo that [getUserInfo] yields when it yields one, and is left as
    it was when [getUserInfo] yields nothing. *)
Theorem login_ok_session env st p e pw :
  In (CallLogin e pw) (snd (fire (handleLogin env) st)) ->
  on_login env e pw = 200 ->
  modalOpen (parent_after p (snd (fire (handleLogin env) st))) = false /\
  session (parent_after p (snd (fire (handleLogin env) st))) =
    match on_getUserInfo env with
    | Some i => i
    | None => session p
    end.
Proof.
  intros Hcall Hstatus.
  destruct (login_called_inv _ _ _ _ Hcall) as (-> & -> & G).
  rewrite handleLogin_fire, G. cbv zeta. rewrite Hstatus. cbn.
  destruct (on_getUserInfo env); cbn; auto.
Qed.

Lemma login_ok_session_witness :
  modalOpen (parent_after logged_out
    (snd (fire (handleLogin (auth_env 200 true (Some ann)))
            (login_form "a@b.c" (Some "pw"))))) = false /\
  session (parent_after logged_out
    (snd (fire (handleLogin (auth_env 200 true (Some ann)))
            (login_form "a@b.c" (Some "pw"))))) = ann.
Proof.
  apply (login_ok_session (auth_env 200 true (Some ann))
           (login_form "a@b.c" (Some "pw")) logged_out "a@b.c" (Some "pw")).
  - cbn. tauto.
  - reflexivity.
Defined.

(** C4: whenever [handleLogin], called in the Login view, issues the login
    call and receives status 600, the modal is in the two-factor challenge
    view afterwards, and no success notice and no failure notice is
    shown. *)
Theorem login_2fa_required_enters_challenge env st e pw :
  mode st = Login ->
  In (CallLogin e pw) (snd (fire (handleLogin env) st)) ->
  on_login env e pw = 600 ->
  mode (fst (fire (handleLogin env) st)) = TwoFactorChallenge /\
  existsb (is_notice Success) (snd (fire (handleLogin env) st)) = false /\
  existsb (is_notice Error) (snd (fire (handleLogin env) st)) = false.
Proof.
  intros _ Hcall Hstatus.
  destruct (login_called_inv _ _ _ _ Hcall) as (-> & -> & G).
  rewrite handleLogin_fire, G. cbv zeta. rewrite Hstatus. cbn. auto.
Qed.

Lemma login_2fa_required_enters_challenge_witness :
  mode (fst (fire (handleLogin (auth_env 600 true None))
               (login_form "a@b.c" (Some "pw")))) = TwoFactorChallenge /\
  existsb (is_notice Success)
    (snd (fire (handleLogin (auth_env 600 true None))
            (login_form "a@b.c" (Some "pw")))) = false /\
  existsb (is_notice Error)
    (snd (fire (handleLogin (auth_env 600 true None))
            (login_form "a@b.c" (Some "pw")))) = false.
Proof.
  apply (login_2fa_required_enters_challenge (auth_env 600 true None)
           (login_form "a@b.c" (Some "pw")) "a@b.c" (Some "pw")).
  - reflexivity.
  - cbn. tauto.
  - reflexivity.
Defined.

(** C5: when [submit2FA] runs with a code of length 6 and [verify2FA]
    answers false, the handler stops after the call: its only effects are
    the loading notice and the [verify2FA] call.  The component's state is
    unchanged, the modal is not closed, [updateUser] is not called (the
    parent's session value and visibility are what they were), and no
    success notice and no failure notice is shown. *)
Theorem wrong_2fa_code_does_nothing_further env st p :
  String.length (twoFACode st) = 6%nat ->
  on_verify2FA env (email st) (twoFACode st) = false ->
  fire (submit2FA env) st =
    (st, [Toast Loading "Logging in..." None;
          CallVerify2FA (email st) (twoFACode st)]) /\
  existsb is_close_modal (snd (fire (submit2FA env) st)) = false /\
  existsb is_update_user (snd (fire (submit2FA env) st)) = false /\
  parent_after p (snd (fire (submit2FA env) st)) = p /\
  existsb (is_notice Success) (snd (fire (submit2FA env) st)) = false /\
  existsb (is_notice Error) (snd (fire (submit2FA env) st)) = false.
Proof.
  intros Hlen Hwrong.
  rewrite submit2FA_fire, Hlen, Hwrong. cbn. repeat split.
Qed.

Lemma wrong_2fa_code_does_nothing_further_witness :
  fire (submit2FA (auth_env 600 false (Some ann))) (code_form "a@b.c" "123456")
  = (code_form "a@b.c" "123456",
     [Toast Loading "Logging in..." None; CallVerify2FA "a@b.c" "123456"]).
Proof.
  apply (wrong_2fa_code_does_nothing_further (auth_env 600 false (Some ann))
           (code_form "a@b.c" "123456") logged_out);
    reflexivity.
Defined.

(** ** More on the auth modal *)

(** Case analysis on every test of a run equation. *)
Ltac split_tests :=
  cbv zeta;
  repeat match goal with
         | |- context [match ?x with _ => _ end] => destruct x eqn:?
         end.

(** A register call in the log is the one for the form's own fields: all
    three were filled in and the two passwords are the same. *)
Lemma register_called_inv env st u e p :
  In (CallRegister u e p) (snd (fire (handleRegister env) st)) ->
  u = usernameRef st /\ e = email st /\ p = passwordRef st /\
  negb (JS.truthy (usernameRef st)) || negb (JS.truthy_string (email st))
  || negb (JS.truthy (passwordRef st)) = false /\
  JS.strict_eq (passwordRef st) (repeatPasswordRef st) = true.
Proof.
  rewrite handleRegister_fire.
  destruct (negb (JS.truthy (usernameRef st))
            || negb (JS.truthy_string (email st))
            || negb (JS.truthy (passwordRef st))); cbn; [tauto|].
  destruct (JS.strict_eq (passwordRef st) (repeatPasswordRef st)); cbn.
  - destruct (on_register env (usernameRef st) (email st) (passwordRef st)
              =? 201); cbn;
      intros [H|[H|[H|[]]]]; try discriminate H;
      injection H as <- <- <-; auto.
  - intros [H|[]]. discriminate H.
Qed.

Lemma onKeyDown_fire env key st :
  fire (onKeyDown env key) st =
  if String.eqb key "Enter" then fire (handleLogin env) st else (st, []).
Proof.
  unfold fire, onKeyDown. destruct (String.eqb key "Enter"); reflexivity.
Qed.

Lemma handleLogin_never_registers env st :
  existsb is_register_call (snd (fire (handleLogin env) st)) = false.
Proof. rewrite handleLogin_fire. split_tests; reflexivity. Qed.

(** No action of the modal switches the two-factor view off. *)
Lemma handler_keeps_challenge env a st :
  isTwoFAEnabled st = true ->
  isTwoFAEnabled (fst (fire (handler env a) st)) = true.
Proof.
  intros H. destruct a; unfold handler;
    try (unfold fire, StateMonad.execState; cbn; exact H).
  - rewrite onKeyDown_fire, handleLogin_fire. split_tests; cbn; auto.
  - rewrite onKeyDown_fire, handleLogin_fire. split_tests; cbn; auto.
  - rewrite handleLogin_fire. split_tests; cbn; auto.
  - rewrite handleRegister_fire. split_tests; cbn; auto.
  - rewrite submit2FA_fire. split_tests; cbn; auto.
Qed.

(** X1: when [handleLogin] issues the login call and the answer is neither
    600 nor 200, the form is left as it is and exactly one failure notice
    replaces the loading notice: "Wrong email or password!" for 403,
    "Failed to log in" for every other status.  The parent sees nothing:
    the modal stays open and the session value is untouched. *)
Theorem login_failure_is_reported env st p e pw :
  In (CallLogin e pw) (snd (fire (handleLogin env) st)) ->
  on_login env e pw <> 600 ->
  on_login env e pw <> 200 ->
  fire (handleLogin env) st =
    (st, [Toast Loading "Logging in..." None;
          CallLogin e pw;
          Toast Error
            (if on_login env e pw =? 403 then "Wrong email or password!"
             else "Failed to log in")
            (Some (on_toast_loading env "Logging in..."))]) /\
  parent_after p (snd (fire (handleLogin env) st)) = p.
Proof.
  intros Hcall H600 H200.
  destruct (login_called_inv _ _ _ _ Hcall) as (-> & -> & G).
  apply Z.eqb_neq in H600, H200.
  rewrite handleLogin_fire, G. cbv zeta. rewrite H600, H200.
  destruct (on_login env (email st) (passwordRef st) =? 403); cbn; auto.
Qed.

Lemma login_failure_is_reported_witness :
  fire (handleLogin (auth_env 500 true None)) (login_form "a@b.c" (Some "pw"))
  = (login_form "a@b.c" (Some "pw"),
     [Toast Loading "Logging in..." None;
      CallLogin "a@b.c" (Some "pw");
      Toast Error "Failed to log in" (Some "t1")]) /\
  parent_after logged_out
    (snd (fire (handleLogin (auth_env 500 true None))
            (login_form "a@b.c" (Some "pw")))) = logged_out.
Proof.
  apply (login_failure_is_reported (auth_env 500 true None)
           (login_form "a@b.c" (Some "pw")) logged_out "a@b.c" (Some "pw")).
  - cbn. tauto.
  - discriminate.
  - discriminate.
Defined.

(** X2: a register call issued by [handleRegister] carries the form's
    username, email and password, all non-empty, and the password equals
    the repeated password.  On status 201 the modal goes back from the
    register view to the login view with a success notice; on any other
    status the state is unchanged and a failure notice is shown.  Either
    notice replaces the loading notice. *)
Theorem register_sends_form_and_reports env st u e pw :
  In (CallRegister u e pw) (snd (fire (handleRegister env) st)) ->
  (u = usernameRef st /\ e = email st /\ pw = passwordRef st /\
   pw = repeatPasswordRef st /\
   u <> None /\ u <> Some "" /\ e <> "" /\ pw <> None /\ pw <> Some "") /\
  fire (handleRegister env) st =
    (if on_register env u e pw =? 201
     then setIsUserRegistering (fun _ => false) st else st,
     [Toast Loading "Registering..." None;
      CallRegister u e pw;
      if on_register env u e pw =? 201
      then Toast Success "Successfully registered"
             (Some (on_toast_loading env "Registering..."))
      else Toast Error "Failed to register"
             (Some (on_toast_loading env "Registering..."))]) /\
  (on_register env u e pw = 201 -> mode st = Register ->
   mode (fst (fire (handleRegister env) st)) = Login).
Proof.
  intros Hcall.
  destruct (register_called_inv _ _ _ _ _ Hcall) as (-> & -> & -> & G & E).
  split; [|split].
  - apply strict_eq_true in E.
    rewrite !orb_false_iff, !negb_false_iff in G. destruct G as [[Gu Ge] Gp].
    repeat split; auto; intros C.
    + rewrite C in Gu. discriminate.
    + rewrite C in Gu. discriminate.
    + rewrite C in Ge. discriminate.
    + rewrite C in Gp. discriminate.
    + rewrite C in Gp. discriminate.
  - rewrite handleRegister_fire, G, E. cbn.
    destruct (on_register env (usernameRef st) (email st) (passwordRef st)
              =? 201); reflexivity.
  - intros Hok Hmode. rewrite handleRegister_fire, G, E. cbn.
    rewrite Hok. cbn. unfold mode in *. cbn.
    destruct (isTwoFAEnabled st); [discriminate|reflexivity].
Qed.

Lemma register_sends_form_and_reports_witness :
  mode (fst (fire (handleRegister (auth_env 200 true None))
               (register_form (Some "ann") "a@b.c" (Some "p") (Some "p"))))
  = Login.
Proof.
  apply (register_sends_form_and_reports (auth_env 200 true None)
           (register_form (Some "ann") "a@b.c" (Some "p") (Some "p"))
           (Some "ann") "a@b.c" (Some "p")).
  - cbn. tauto.
  - reflexivity.
  - reflexivity.
Defined.

(** X3: [submit2FA] after the code field reported [code]: unless the code
    has length 6 nothing happens at all; when it has, the handler shows
    the loading notice and calls [verify2FA] with the modal's email and
    that very code.  The state is not changed by the submission. *)
Theorem submit2FA_verifies_typed_code env st code :
  (String.length code <> 6%nat ->
   fire (submit2FA env) (fst (fire (handleAuthCodeState code) st))
   = (setTwoFACode code st, [])) /\
  (String.length code = 6%nat ->
   fst (fire (submit2FA env) (fst (fire (handleAuthCodeState code) st)))
   = setTwoFACode code st /\
   firstn 2 (snd (fire (submit2FA env)
                    (fst (fire (handleAuthCodeState code) st))))
   = [Toast Loading "Logging in..." None; CallVerify2FA (email st) code]).
Proof.
  change (fst (fire (handleAuthCodeState code) st))
    with (setTwoFACode code st).
  rewrite submit2FA_fire. cbn [twoFACode email setTwoFACode].
  split; intros H.
  - apply Nat.eqb_neq in H. now rewrite H.
  - rewrite H. cbn.
    destruct (on_verify2FA env (email st) code);
      [destruct (on_getUserInfo env)|]; cbn; auto.
Qed.

Lemma submit2FA_verifies_typed_code_witness :
  fire (submit2FA (auth_env 600 true None))
       (fst (fire (handleAuthCodeState "123") (code_form "a@b.c" "")))
  = (code_form "a@b.c" "123", []) /\
  firstn 2 (snd (fire (submit2FA (auth_env 600 true None))
                   (fst (fire (handleAuthCodeState "123456")
                           (code_form "a@b.c" "")))))
  = [Toast Loading "Logging in..." None; CallVerify2FA "a@b.c" "123456"].
Proof.
  split.
  - apply (proj1 (submit2FA_verifies_typed_code (auth_env 600 true None)
                    (code_form "a@b.c" "") "123")).
    cbn. discriminate.
  - apply (proj2 (submit2FA_verifies_typed_code (auth_env 600 true None)
                    (code_form "a@b.c" "") "123456")).
    reflexivity.
Defined.

(** X4: when [submit2FA] runs with a code of length 6 and [verify2FA]
    answers true, a success notice replaces the loading notice and the
    modal is closed; the session value becomes the UserInfo that
    [getUserInfo] yields, or stays what it was when it yields nothing.  The
    modal's own state is unchanged. *)
Theorem correct_2fa_code_logs_in env st p :
  String.length (twoFACode st) = 6%nat ->
  on_verify2FA env (email st) (twoFACode st) = true ->
  fst (fire (submit2FA env) st) = st /\
  In (Toast Success "Successfully logged in"
        (Some (on_toast_loading env "Logging in...")))
     (snd (fire (submit2FA env) st)) /\
  modalOpen (parent_after p (snd (fire (submit2FA env) st))) = false /\
  session (parent_after p (snd (fire (submit2FA env) st))) =
    match on_getUserInfo env with
    | Some i => i
    | None => session p
    end.
Proof.
  intros Hlen Hok. rewrite submit2FA_fire, Hlen, Hok. cbn.
  destruct (on_getUserInfo env); cbn; repeat split; tauto.
Qed.

Lemma correct_2fa_code_logs_in_witness :
  session (parent_after logged_out
    (snd (fire (submit2FA (auth_env 600 true (Some ann)))
            (code_form "a@b.c" "123456")))) = ann.
Proof.
  apply (correct_2fa_code_logs_in (auth_env 600 true (Some ann))
           (code_form "a@b.c" "123456") logged_out);
    reflexivity.
Defined.



(** X6: once the modal shows the two-factor challenge, no sequence of
    actions, whatever the outside answers, brings back the login or the
    register view. *)
Theorem challenge_is_never_left steps :
  forall st,
    mode st = TwoFactorChallenge ->
    mode (run steps st) = TwoFactorChallenge.
Proof.
  assert (M : forall s, mode s = TwoFactorChallenge <-> isTwoFAEnabled s = true).
  { intros s. unfold mode.
    destruct (isTwoFAEnabled s), (isUserRegistering s); split;
      (reflexivity || discriminate). }
  induction steps as [|[env a] steps IH]; intros st H; cbn; [exact H|].
  apply IH, M, handler_keeps_challenge, M, H.
Qed.

Lemma challenge_is_never_left_witness :
  mode (run [(auth_env 200 true (Some ann), ClickSwitch);
             (auth_env 200 true (Some ann), ClickLogin);
             (auth_env 200 false None, ClickSubmitCode)]
          (code_form "a@b.c" "123456")) = TwoFactorChallenge.
Proof.
  apply (challenge_is_never_left
           [(auth_env 200 true (Some ann), ClickSwitch);
            (auth_env 200 true (Some ann), ClickLogin);
            (auth_env 200 false None, ClickSubmitCode)]
           (code_form "a@b.c" "123456")).
  reflexivity.
Defined.

(** X7: the two-factor challenge is entered only by a login that was
    answered 600: when an action takes the modal from another view to
    the challenge, its log holds the login call for the form's email and
    password, and the answer to that call is 600. *)
Theorem challenge_needs_status_600 env a st :
  mode st <> TwoFactorChallenge ->
  mode (fst (fire (handler env a) st)) = TwoFactorChallenge ->
  In (CallLogin (email st) (passwordRef st)) (snd (fire (handler env a) st))
  /\ on_login env (email st) (passwordRef st) = 600.
Proof.
  assert (M : forall s, mode s = TwoFactorChallenge <-> isTwoFAEnabled s = true).
  { intros s. unfold mode.
    destruct (isTwoFAEnabled s), (isUserRegistering s); split;
      (reflexivity || discriminate). }
  intros Hnot Hin. rewrite M in Hnot, Hin.
  assert (L : isTwoFAEnabled (fst (fire (handleLogin env) st)) = true ->
              In (CallLogin (email st) (passwordRef st))
                 (snd (fire (handleLogin env) st)) /\
              on_login env (email st) (passwordRef st) = 600).
  { rewrite handleLogin_fire. cbv zeta.
    destruct (negb (JS.truthy_string (email st))
              || negb (JS.truthy (passwordRef st))); cbn; [tauto|].
    destruct (Z.eqb_spec (on_login env (email st) (passwordRef st)) 600);
      [cbn; tauto|].
    split_tests; cbn; tauto. }
  destruct a; unfold handler in *; [| | | | | |exact (L Hin)| | |];
    try (unfold fire, StateMonad.execState in Hin; cbn in Hin; tauto).
  - rewrite onKeyDown_fire in *.
    destruct (String.eqb key "Enter"); [auto | cbn in Hin; tauto].
  - rewrite onKeyDown_fire in *.
    destruct (String.eqb key "Enter"); [auto | cbn in Hin; tauto].
  - exfalso. rewrite handleRegister_fire in Hin. revert Hin.
    split_tests; cbn; tauto.
  - exfalso. rewrite submit2FA_fire in Hin. revert Hin.
    split_tests; cbn; tauto.
Qed.

Lemma challenge_needs_status_600_witness :
  on_login (auth_env 600 true None) "a@b.c" (Some "pw") = 600.
Proof.
  apply (challenge_needs_status_600 (auth_env 600 true None) ClickLogin
           (login_form "a@b.c" (Some "pw"))).
  - discriminate.
  - reflexivity.
Defined.



(** X9: a key pressed in the repeat-password input of the register form
    never calls the register operation.  A key other than Enter does
    nothing; Enter submits the login: with a non-empty email and password
    the login call is issued for them. *)
Theorem enter_in_register_form_logs_in env key st :
  existsb is_register_call
    (snd (fire (handler env (KeyDownRepeatPassword key)) st)) = false /\
  (key <> "Enter" ->
   fire (handler env (KeyDownRepeatPassword key)) st = (st, [])) /\
  (key = "Enter" -> email st <> "" -> JS.truthy (passwordRef st) = true ->
   In (CallLogin (email st) (passwordRef st))
      (snd (fire (handler env (KeyDownRepeatPassword key)) st))).
Proof.
  unfold handler. rewrite onKeyDown_fire. repeat split.
  - destruct (String.eqb key "Enter"); [|reflexivity].
    apply handleLogin_never_registers.
  - intros H. apply String.eqb_neq in H. now rewrite H.
  - intros -> He Hp. rewrite String.eqb_refl, handleLogin_fire.
    assert (G : negb (JS.truthy_string (email st))
                || negb (JS.truthy (passwordRef st)) = false).
    { rewrite Hp. cbn. rewrite orb_false_r. apply negb_false_iff.
      destruct (JS.truthy_string (email st)) eqn:E; [reflexivity|].
      apply truthy_string_false in E. contradiction. }
    rewrite G. split_tests; cbn; tauto.
Qed.

Lemma enter_in_register_form_logs_in_witness :
  In (CallLogin "a@b.c" (Some "p"))
     (snd (fire (handler (auth_env 200 true (Some ann))
                   (KeyDownRepeatPassword "Enter"))
             (register_form (Some "ann") "a@b.c" (Some "p") (Some "p")))).
Proof.
  apply (proj2 (proj2 (enter_in_register_form_logs_in
                         (auth_env 200 true (Some ann)) "Enter"
                         (register_form (Some "ann") "a@b.c" (Some "p")
                            (Some "p"))))).
  - reflexivity.
  - discriminate.
  - reflexivity.
Defined.

End AuthModalSpec.

(** ** The settings sidebar *)
Module SettingsSidebarSpec.
Import SettingsSidebar.

(** X10: a tab of the sidebar carries the highlight colour exactly when
    it is the current page; so when the page is one of the four tabs (as
    after a click on it), that tab and no other is highlighted. *)
Theorem sidebar_highlights_current_page page tab :
  Css.has_class "text-sky-400" (tabClasses page tab) = String.eqb page tab /\
  (In page tabs -> highlighted page = [page]).
Proof.
  assert (H : forall p t,
             Css.has_class "text-sky-400" (tabClasses p t) = String.eqb p t).
  { intros p t. unfold tabClasses.
    destruct (String.eqb p t); vm_compute; reflexivity. }
  split; [apply H|].
  unfold highlighted, tabs. cbn [filter]. rewrite !H.
  intros [<-|[<-|[<-|[<-|[]]]]]; reflexivity.
Qed.

Lemma sidebar_highlights_current_page_witness :
  highlighted "tokens" = ["tokens"].
Proof.
  apply (proj2 (sidebar_highlights_current_page "tokens" "about")).
  cbn. tauto.
Defined.

End SettingsSidebarSpec.

(** ** The new-environment wizard *)
Module NewEnviromentSpec.
Import NewEnviroment.

Lemma step_keeps_stage_in_range o s :
  available s o = true ->
  1 <= stage s <= 3 ->
  1 <= stage (step o s) <= 3.
Proof.
  destruct o; unfold step, formSubmitHandler; cbn; intros Ha Hs; lia.
Qed.

Lemma run_keeps_stage_in_range ops :
  forall s s', run ops s = Some s' ->
               1 <= stage s <= 3 -> 1 <= stage s' <= 3.
Proof.
  induction ops as [|o ops IH]; cbn; intros s s' Hrun Hs.
  - now injection Hrun as <-.
  - destruct (available s o) eqn:Ha; [|discriminate].
    eapply IH; [eassumption|]. now apply step_keeps_stage_in_range.
Qed.

(** C9: every state [s] that a sequence of operations, each available at
    its turn, reaches from the initial state has its stage in {1, 2, 3}.
    There Back is available exactly when the stage is not 1 and decrements
    it, Next is available exactly when the stage is not 3 and increments
    it, and an indicator click sets the stage to the indicator's number. *)
Theorem wizard_stage_stays_in_range ops s :
  run ops initial = Some s ->
  (stage s = 1 \/ stage s = 2 \/ stage s = 3) /\
  (available s Back = true <-> stage s <> 1) /\
  stage (step Back s) = stage s - 1 /\
  (available s Next = true <-> stage s <> 3) /\
  stage (step Next s) = stage s + 1 /\
  stage (step Indicator1 s) = 1 /\
  stage (step Indicator2 s) = 2 /\
  stage (step Indicator3 s) = 3.
Proof.
  intros Hrun.
  assert (Hs : 1 <= stage s <= 3).
  { eapply run_keeps_stage_in_range; [eassumption|]. cbn. lia. }
  split; [lia|]. cbn.
  rewrite !negb_true_iff, !Z.eqb_neq. tauto.
Qed.

Lemma wizard_stage_stays_in_range_witness :
  stage (step Create (step Indicator3 (step Back (step Next
          (step Next initial))))) = 3.
Proof.
  destruct (wizard_stage_stays_in_range
              [Next; Next; Back; Indicator3; Create]
              (step Create (step Indicator3 (step Back (step Next
                 (step Next initial)))))) as [[H|[H|H]] _].
  - reflexivity.
  - discriminate H.
  - discriminate H.
  - exact H.
Defined.







(** X14: in every state the wizard reaches, the stage indicators work as
    a progress bar: indicator [n] has the lit colour exactly when [n] is
    at most the stage, and each bar has the colour of the indicator to
    its right. *)
Theorem indicators_show_progress ops s :
  run ops initial = Some s ->
  indicator1 s = "bg-sky-600" /\
  (indicator2 s = "bg-sky-600" <-> 2 <= stage s) /\
  (indicator3 s = "bg-sky-600" <-> 3 <= stage s) /\
  bar12 s = indicator2 s /\
  bar23 s = indicator3 s.
Proof.
  intros Hrun.
  assert (Hs : 1 <= stage s <= 3).
  { eapply run_keeps_stage_in_range; [eassumption|]. cbn. lia. }
  unfold indicator1, indicator2, indicator3, bar12, bar23.
  split; [reflexivity|]. split; [|split; [|split; reflexivity]].
  - destruct (Z.geb_spec (stage s) 2); split; intros G;
      try reflexivity; try discriminate G; lia.
  - destruct (Z.eqb_spec (stage s) 3); split; intros G;
      try reflexivity; try discriminate G; lia.
Qed.

Lemma indicators_show_progress_witness :
  indicator2 (step Next initial) = "bg-sky-600" <->
  2 <= stage (step Next initial).
Proof.
  apply (indicators_show_progress [Next] (step Next initial)). reflexivity.
Defined.


End NewEnviromentSpec.

(** ** The profile page *)
Module ProfileSpec.
Import Fx Profile Samples.

Ltac run_handler h :=
  unfold fire, h, StateMonad.execState; cbn.

(** Case analysis on every test of a run equation. *)
Ltac split_branches :=
  repeat match goal with
         | |- context [match ?x with _ => _ end] => destruct x eqn:?; cbn
         end.

(** What one call of [fetchData] does. *)
Lemma fetchData_fire env st :
  fire (fetchData env) st =
  (if JS.truthy
        (ProfileInterface.username (on_getUserProfile env (userId env)))
   then setUserData (on_getUserProfile env (userId env)) st
   else st,
   [CallGetUserProfile (userId env)]).
Proof.
  run_handler fetchData.
  destruct (JS.truthy _); reflexivity.
Qed.

(** What one call of [handleSaveSettings] does, branch by branch. *)
Lemma handleSaveSettings_fire env st :
  fire (handleSaveSettings env) st =
  match usernameRef st, descriptionRef st with
  | Some username, Some description =>
      if String.eqb username "" then
        (st, [Toast Error "Username can't be empty!" None])
      else if JS.strict_eq (Some description) (snapshot_description st)
              && JS.strict_eq (Some username) (snapshot_username st)
              && negb (has_blob st)
      then (setIsUserChangingSettings false st, [])
      else
        let id := on_toast_loading env "Updating..." in
        let data := on_getUserProfile env (userId env) in
        let upload :=
          match avatarBlob st with
          | Some blob =>
              [CallUpdateAvatar "avatar.png" "image/png" blob;
               if on_updateAvatar env blob
               then Toast Success "Avatar updated succesfully" None
               else Toast Error "Failed to save avatar" None]
          | None => []
          end in
        let called :=
          [Toast Loading "Updating..." None;
           CallUpdateSettings username description] ++ upload in
        if on_updateSettings env username description then
          (setIsUserChangingSettings false
             (if JS.truthy (ProfileInterface.username data)
              then setUserData data st else st),
           called ++ [Toast Success "Settings saved!" (Some id);
                      CallGetUserProfile (userId env)])
        else
          (st, called ++ [Toast Error "Failed to save settings!" (Some id)])
  | _, _ => (st, [])
  end.
Proof.
  unfold fire, handleSaveSettings, handleAvatarChange, fetchData, has_blob,
    StateMonad.execState.
  cbn.
  destruct (usernameRef st) as [u|]; [|reflexivity].
  destruct (descriptionRef st) as [d|]; [|reflexivity].
  destruct (String.eqb u ""); [reflexivity|].
  destruct (avatarBlob st) as [blob|]; cbn.
  - rewrite !andb_false_r. cbn.
    destruct (on_updateAvatar env blob), (on_updateSettings env u d),
      (JS.truthy (ProfileInterface.username (on_getUserProfile env (userId env))));
      reflexivity.
  - rewrite !andb_true_r.
    destruct (_ && _); [reflexivity|]. cbn.
    destruct (on_updateSettings env u d),
      (JS.truthy (ProfileInterface.username (on_getUserProfile env (userId env))));
      reflexivity.
Qed.

(** What one call of [handleReactingWithSettings] does, branch by branch. *)
Lemma handleReactingWithSettings_fire env st :
  fire (handleReactingWithSettings env) st =
  if negb (isUserChangingSettings st) then
    (setIsUserChangingSettings true st, [])
  else
    match usernameRef st, descriptionRef st with
    | Some username, Some description =>
        if JS.strict_eq (Some username) (snapshot_username st)
           && JS.strict_eq (Some description) (snapshot_description st)
           && negb (has_blob st)
        then (setIsUserChangingSettings false st, [])
        else if on_confirm env discard_prompt then
          (setIsUserChangingSettings false (setAvatarBlob None st),
           [Confirm discard_prompt])
        else (st, [Confirm discard_prompt])
    | _, _ => (st, [])
    end.
Proof.
  run_handler handleReactingWithSettings.
  destruct (negb (isUserChangingSettings st)); [reflexivity|]. cbn.
  destruct (usernameRef st) as [u|]; [|reflexivity].
  destruct (descriptionRef st) as [d|]; [|reflexivity].
  destruct (_ && _); [reflexivity|].
  cbn. destruct (on_confirm env discard_prompt); reflexivity.
Qed.

(** A handler leaves the snapshot alone or stores a fetched one whose
    username is truthy. *)
Lemma handler_userData env a st :
  userData (fst (fire (handler env a) st)) = userData st \/
  exists d, userData (fst (fire (handler env a) st)) = Some d /\
            JS.truthy (ProfileInterface.username d) = true.
Proof.
  destruct a; unfold handler.
  - rewrite fetchData_fire; cbn. split_branches; eauto.
  - run_handler loggedUserDataEffect. split_branches; auto.
  - rewrite handleReactingWithSettings_fire. split_branches; auto.
  - rewrite handleSaveSettings_fire. cbv zeta. split_branches; eauto.
  - run_handler @setState. auto.
  - run_handler handleAddingContent. auto.
  - run_handler handleUserChaningAvatar. auto.
  - run_handler saveAvatarImage.
    destruct (negb (newAvatarRef env)); cbn; auto.
    destruct (on_toBlob env) as [[blob url]|]; cbn; auto.
  - run_handler uploadAvatar. split_branches; auto.
  - run_handler @setState. auto.
Qed.

(** Whatever happened to the page, a stored snapshot has a truthy
    username: only [fetchData] stores one, behind its test. *)
Lemma reachable_snapshot_named st :
  reachable st -> snapshot_named st = true.
Proof.
  induction 1 as [|env a st _ IH]; [reflexivity|].
  unfold snapshot_named in *.
  destruct (handler_userData env a st) as [E|(d & E & Hd)]; rewrite E; auto.
Qed.

(** Saving with no pending avatar never uploads one. *)
Lemma save_without_blob_uploads_no_avatar env st :
  avatarBlob st = None ->
  existsb is_avatar_upload (snd (fire (handleSaveSettings env) st)) = false.
Proof.
  intros H. rewrite handleSaveSettings_fire, H. cbv zeta.
  split_branches; reflexivity.
Qed.

(** C8: [fetchData] stores the object that [getUserProfile] yields as the
    snapshot exactly when its username field is truthy; when that field is
    missing or falsy the state is untouched, so the snapshot stays what it
    was (unset, on the first fetch).  Either way the only effect is the
    [getUserProfile] call: no notice is shown. *)
Theorem fetchData_stores_named_profiles_only env st :
  fire (fetchData env) st =
    (if JS.truthy
          (ProfileInterface.username (on_getUserProfile env (userId env)))
     then setUserData (on_getUserProfile env (userId env)) st
     else st,
     [CallGetUserProfile (userId env)]) /\
  userData (fst (fire (fetchData env) st)) =
    (if JS.truthy
          (ProfileInterface.username (on_getUserProfile env (userId env)))
     then Some (on_getUserProfile env (userId env))
     else userData st) /\
  existsb is_any_notice (snd (fire (fetchData env) st)) = false.
Proof.
  rewrite fetchData_fire. cbn. repeat split.
  destruct (JS.truthy _); reflexivity.
Qed.

(** C6: on a page reached from its initial state, when the form's username
    equals the snapshot's username, the form's description equals the
    snapshot's description and no avatar blob is pending,
    [handleSaveSettings] has no effect at all outside (no notice, no
    network call) and only switches the page back to viewing. *)
Theorem unchanged_save_is_noop env st username description :
  reachable st ->
  usernameRef st = Some username ->
  descriptionRef st = Some description ->
  snapshot_username st = Some username ->
  snapshot_description st = Some description ->
  avatarBlob st = None ->
  fire (handleSaveSettings env) st = (setIsUserChangingSettings false st, [])
  /\ isUserChangingSettings (fst (fire (handleSaveSettings env) st)) = false
  /\ existsb is_network_call (snd (fire (handleSaveSettings env) st)) = false.
Proof.
  intros Hreach Hu Hd Hsu Hsd Hblob.
  assert (Hne : String.eqb username "" = false).
  { apply reachable_snapshot_named in Hreach.
    unfold snapshot_named in Hreach. unfold snapshot_username in Hsu.
    destruct (userData st) as [p|]; [|discriminate].
    rewrite Hsu in Hreach. cbn in Hreach.
    now apply negb_true_iff in Hreach. }
  rewrite handleSaveSettings_fire, Hu, Hd, Hne, Hsu, Hsd.
  unfold has_blob. rewrite Hblob. cbn. rewrite !String.eqb_refl. cbn.
  repeat split.
Qed.

Lemma unchanged_save_is_noop_witness :
  fire (handleSaveSettings (profile_env true true)) (editing "ann" "hi")
  = (setIsUserChangingSettings false (editing "ann" "hi"), [])
  /\ isUserChangingSettings
       (fst (fire (handleSaveSettings (profile_env true true))
               (editing "ann" "hi"))) = false
  /\ existsb is_network_call
       (snd (fire (handleSaveSettings (profile_env true true))
               (editing "ann" "hi"))) = false.
Proof.
  apply (unchanged_save_is_noop (profile_env true true) (editing "ann" "hi")
           "ann" "hi"); try reflexivity.
  unfold editing. repeat apply reachable_step. apply reachable_initial.
Defined.

(** C7: when the form's username is the empty string, whatever the
    description and whether or not an avatar blob is pending,
    [handleSaveSettings] shows the error notice and nothing else happens:
    the state is unchanged, so a page in editing mode stays in editing
    mode, and no network call is issued. *)
Theorem empty_username_is_rejected env st description :
  isUserChangingSettings st = true ->
  usernameRef st = Some "" ->
  descriptionRef st = Some description ->
  fire (handleSaveSettings env) st =
    (st, [Toast Error "Username can't be empty!" None]) /\
  existsb (is_notice Error) (snd (fire (handleSaveSettings env) st)) = true /\
  isUserChangingSettings (fst (fire (handleSaveSettings env) st)) = true /\
  existsb is_network_call (snd (fire (handleSaveSettings env) st)) = false.
Proof.
  intros Hedit Hu Hd.
  rewrite handleSaveSettings_fire, Hu, Hd. cbn. auto.
Qed.

Lemma empty_username_is_rejected_witness :
  fire (handleSaveSettings (profile_env true true))
       (editing_with_avatar "" "x")
  = (editing_with_avatar "" "x", [Toast Error "Username can't be empty!" None]).
Proof.
  apply (empty_username_is_rejected (profile_env true true)
           (editing_with_avatar "" "x") "x");
    reflexivity.
Defined.

(** C10: when [handleReactingWithSettings] runs in editing mode with
    unsaved changes (the form differs from the snapshot or an avatar blob
    is pending) and the user confirms the prompt, the pending avatar blob
    is cleared and the page leaves editing mode; whatever is typed after
    opening the settings again, the next [handleSaveSettings] issues no
    avatar upload. *)
Theorem confirmed_discard_clears_avatar env st username description :
  isUserChangingSettings st = true ->
  usernameRef st = Some username ->
  descriptionRef st = Some description ->
  snapshot_username st <> Some username \/
  snapshot_description st <> Some description \/
  avatarBlob st <> None ->
  on_confirm env discard_prompt = true ->
  fire (handleReactingWithSettings env) st =
    (setIsUserChangingSettings false (setAvatarBlob None st),
     [Confirm discard_prompt]) /\
  avatarBlob (fst (fire (handleReactingWithSettings env) st)) = None /\
  isUserChangingSettings (fst (fire (handleReactingWithSettings env) st))
  = false /\
  forall env1 env2 u d,
    existsb is_avatar_upload
      (snd (fire (handleSaveSettings env2)
              (setDom u d
                 (fst (fire (handleReactingWithSettings env1)
                         (fst (fire (handleReactingWithSettings env) st)))))))
    = false.
Proof.
  intros Hedit Hu Hd Hchanged Hyes.
  assert (Hdirty : JS.strict_eq (Some username) (snapshot_username st)
                   && JS.strict_eq (Some description) (snapshot_description st)
                   && negb (has_blob st) = false).
  { rewrite !andb_false_iff, negb_false_iff.
    destruct Hchanged as [H|[H|H]].
    - left; left. cbn. destruct (snapshot_username st) as [x|]; auto.
      apply String.eqb_neq. congruence.
    - left; right. cbn. destruct (snapshot_description st) as [x|]; auto.
      apply String.eqb_neq. congruence.
    - right. unfold has_blob. destruct (avatarBlob st); congruence. }
  rewrite handleReactingWithSettings_fire, Hedit, Hu, Hd, Hdirty, Hyes.
  cbn [negb fst snd].
  split; [reflexivity|]. split; [reflexivity|]. split; [reflexivity|].
  intros env1 env2 u d. apply save_without_blob_uploads_no_avatar.
  rewrite handleReactingWithSettings_fire. reflexivity.
Qed.

Lemma confirmed_discard_clears_avatar_witness :
  avatarBlob
    (fst (fire (handleReactingWithSettings (profile_env true true))
            (editing_with_avatar "ann" "hi"))) = None.
Proof.
  apply (confirmed_discard_clears_avatar (profile_env true true)
           (editing_with_avatar "ann" "hi") "ann" "hi"); try reflexivity.
  right. right. discriminate.
Defined.

(** ** More on the profile page *)

(** X16: a picked file that is neither PNG nor JPEG is rejected: an error
    notice is shown, the file input is cleared, and the crop editor is not
    opened nor the avatar URL changed.  A PNG or JPEG file opens the crop
    editor on the file's URL without any notice.  No pick calls the
    network or touches the pending blob. *)
Theorem uploadAvatar_takes_png_and_jpeg_only f st :
  (file_type f <> "image/png" -> file_type f <> "image/jpeg" ->
   fire (uploadAvatar (Some f)) st =
     (setAvatarInputValue "" st,
      [Toast Error "Only .png and .jpeg files are allowed!" None]) /\
   isUserChangingAvatar (fst (fire (uploadAvatar (Some f)) st))
   = isUserChangingAvatar st /\
   avatarUrl (fst (fire (uploadAvatar (Some f)) st)) = avatarUrl st /\
   (avatarInputRef st <> None ->
    avatarInputRef (fst (fire (uploadAvatar (Some f)) st)) = Some "")) /\
  (file_type f = "image/png" \/ file_type f = "image/jpeg" ->
   fire (uploadAvatar (Some f)) st =
     (setIsUserChangingAvatar true (setAvatarUrl (file_url f) st), [])) /\
  avatarBlob (fst (fire (uploadAvatar (Some f)) st)) = avatarBlob st /\
  existsb is_network_call (snd (fire (uploadAvatar (Some f)) st)) = false.
Proof.
  unfold fire, uploadAvatar, StateMonad.execState. cbn.
  destruct (String.eqb_spec (file_type f) "image/png") as [Ep|Np];
    [|destruct (String.eqb_spec (file_type f) "image/jpeg") as [Ej|Nj]];
    cbn; repeat split; intros; try reflexivity; try contradiction;
    try tauto.
  destruct (avatarInputRef st); [reflexivity|contradiction].
Qed.

Lemma uploadAvatar_takes_png_and_jpeg_only_witness :
  fire (uploadAvatar (Some gif)) (editing "ann" "hi") =
    (setAvatarInputValue "" (editing "ann" "hi"),
     [Toast Error "Only .png and .jpeg files are allowed!" None]) /\
  fire (uploadAvatar (Some png)) (editing "ann" "hi") =
    (setIsUserChangingAvatar true (setAvatarUrl "blob:png" (editing "ann" "hi")),
     []).
Proof.
  split.
  - apply (proj1 (uploadAvatar_takes_png_and_jpeg_only gif
                    (editing "ann" "hi"))); discriminate.
  - apply (proj1 (proj2 (uploadAvatar_takes_png_and_jpeg_only png
                           (editing "ann" "hi")))).
    left. reflexivity.
Defined.

(** X17: confirming the crop never calls the network.  With the editor
    mounted and a blob produced, the blob becomes the pending avatar, its
    URL the avatar URL, the editor is closed and the file input cleared;
    when no blob is produced the editor is closed all the same and the
    pending avatar is kept; with no editor mounted nothing happens.  The
    snapshot and the editing mode are never touched. *)
Theorem crop_confirm_holds_the_blob env st :
  snd (fire (saveAvatarImage env) st) = [] /\
  userData (fst (fire (saveAvatarImage env) st)) = userData st /\
  isUserChangingSettings (fst (fire (saveAvatarImage env) st))
  = isUserChangingSettings st /\
  (newAvatarRef env = false -> fst (fire (saveAvatarImage env) st) = st) /\
  (newAvatarRef env = true ->
   isUserChangingAvatar (fst (fire (saveAvatarImage env) st)) = false /\
   avatarBlob (fst (fire (saveAvatarImage env) st)) =
     match on_toBlob env with
     | Some (blob, _) => Some blob
     | None => avatarBlob st
     end /\
   avatarUrl (fst (fire (saveAvatarImage env) st)) =
     match on_toBlob env with
     | Some (_, url) => url
     | None => avatarUrl st
     end).
Proof.
  unfold fire, saveAvatarImage, StateMonad.execState. cbn.
  destruct (newAvatarRef env); cbn.
  - destruct (on_toBlob env) as [[blob url]|]; cbn;
      repeat split; intros; (reflexivity || discriminate).
  - repeat split; intros; (reflexivity || discriminate).
Qed.

Lemma crop_confirm_holds_the_blob_witness :
  avatarBlob (fst (fire (saveAvatarImage (profile_env true true))
                     (editing "ann" "hi")))
  = Some [Byte.x89; Byte.x50].
Proof.
  apply (proj2 (proj2 (proj2 (proj2 (crop_confirm_holds_the_blob
           (profile_env true true) (editing "ann" "hi")))))).
  reflexivity.
Defined.

(** X18: a save of a form with a non-empty username that differs from the
    snapshot, or with an avatar pending, calls [updateSettings] exactly
    once, with the form's username and description, and uploads the
    avatar exactly when a blob is pending, as "avatar.png" of type
    "image/png".  The outcome of the settings update alone decides the
    rest: on success the page turns to viewing, the profile is fetched
    again and a success notice replaces the loading notice; on failure the
    state is unchanged (the page stays in editing), a failure notice
    replaces the loading notice and nothing is fetched. *)
Theorem changed_save_updates_once env st username description :
  usernameRef st = Some username ->
  descriptionRef st = Some description ->
  username <> "" ->
  snapshot_username st <> Some username \/
  snapshot_description st <> Some description \/
  avatarBlob st <> None ->
  filter is_settings_update (snd (fire (handleSaveSettings env) st)) =
    [CallUpdateSettings username description] /\
  filter is_avatar_upload (snd (fire (handleSaveSettings env) st)) =
    match avatarBlob st with
    | Some blob => [CallUpdateAvatar "avatar.png" "image/png" blob]
    | None => []
    end /\
  (on_updateSettings env username description = true ->
   isUserChangingSettings (fst (fire (handleSaveSettings env) st)) = false /\
   In (Toast Success "Settings saved!"
         (Some (on_toast_loading env "Updating...")))
      (snd (fire (handleSaveSettings env) st)) /\
   In (CallGetUserProfile (userId env))
      (snd (fire (handleSaveSettings env) st))) /\
  (on_updateSettings env username description = false ->
   fst (fire (handleSaveSettings env) st) = st /\
   In (Toast Error "Failed to save settings!"
         (Some (on_toast_loading env "Updating...")))
      (snd (fire (handleSaveSettings env) st)) /\
   ~ In (CallGetUserProfile (userId env))
        (snd (fire (handleSaveSettings env) st))).
Proof.
  intros Hu Hd Hne Hchanged.
  assert (Hdirty : JS.strict_eq (Some description) (snapshot_description st)
                   && JS.strict_eq (Some username) (snapshot_username st)
                   && negb (has_blob st) = false).
  { rewrite !andb_false_iff, negb_false_iff.
    destruct Hchanged as [H|[H|H]].
    - left; right. cbn. destruct (snapshot_username st) as [x|]; auto.
      apply String.eqb_neq. congruence.
    - left; left. cbn. destruct (snapshot_description st) as [x|]; auto.
      apply String.eqb_neq. congruence.
    - right. unfold has_blob. destruct (avatarBlob st); congruence. }
  apply String.eqb_neq in Hne.
  rewrite handleSaveSettings_fire, Hu, Hd, Hne, Hdirty. cbv zeta.
  destruct (avatarBlob st) as [blob|];
    [destruct (on_updateAvatar env blob)|];
    destruct (on_updateSettings env username description);
    cbn; repeat split; intros; try discriminate; try tauto;
    intros C; repeat (destruct C as [C|C]; try discriminate C); exact C.
Qed.

Lemma changed_save_updates_once_witness :
  filter is_avatar_upload
    (snd (fire (handleSaveSettings (profile_env false true))
            (editing_with_avatar "bob" "hi")))
  = [CallUpdateAvatar "avatar.png" "image/png" [Byte.x89; Byte.x50]].
Proof.
  apply (changed_save_updates_once (profile_env false true)
           (editing_with_avatar "bob" "hi") "bob" "hi");
    try reflexivity.
  - discriminate.
  - left. discriminate.
Defined.

(** X19: a pending avatar comes from a confirmed crop only and is not
    cleared by saving: an action other than the crop confirmation leaves
    an absent blob absent, and [handleSaveSettings] leaves the blob as it
    is, whatever the outcome of the save. *)
Theorem pending_avatar_lifecycle env a st :
  (is_crop a = false -> avatarBlob st = None ->
   avatarBlob (fst (fire (handler env a) st)) = None) /\
  avatarBlob (fst (fire (handleSaveSettings env) st)) = avatarBlob st.
Proof.
  assert (S : forall e s, avatarBlob (fst (fire (handleSaveSettings e) s))
                          = avatarBlob s).
  { intros e s. rewrite handleSaveSettings_fire. cbv zeta.
    destruct (usernameRef s), (descriptionRef s); try reflexivity.
    destruct (String.eqb _ _); [reflexivity|].
    destruct (_ && _); [reflexivity|].
    destruct (on_updateSettings e _ _); [|reflexivity].
    destruct (JS.truthy _); reflexivity. }
  split; [|apply S].
  intros Hc Hb. destruct a; try discriminate Hc; unfold handler.
  - rewrite fetchData_fire. cbn. destruct (JS.truthy _); exact Hb.
  - run_handler loggedUserDataEffect. destruct (negb _); exact Hb.
  - rewrite handleReactingWithSettings_fire.
    destruct (negb _); [exact Hb|].
    destruct (usernameRef st), (descriptionRef st); try exact Hb.
    destruct (_ && _); [exact Hb|].
    destruct (on_confirm env discard_prompt); [reflexivity|exact Hb].
  - now rewrite S.
  - run_handler @setState. exact Hb.
  - run_handler handleAddingContent. exact Hb.
  - run_handler handleUserChaningAvatar. exact Hb.
  - run_handler uploadAvatar. destruct f as [f|]; [|exact Hb].
    cbn. destruct (_ && _); exact Hb.
  - run_handler @setState. exact Hb.
Qed.

Lemma pending_avatar_lifecycle_witness :
  avatarBlob (fst (fire (handler (profile_env true true) ClickSave)
                     (editing "bob" "hi"))) = None.
Proof.
  apply (proj1 (pending_avatar_lifecycle (profile_env true true) ClickSave
                  (editing "bob" "hi")));
    reflexivity.
Defined.

(** X20: an avatar that was pending at a save is pending after it; so the
    next save of a form with a non-empty username uploads the same blob
    again, whatever was typed in between and whatever the first save's
    outcome. *)
Theorem saved_avatar_is_uploaded_again env env' st blob username description :
  avatarBlob st = Some blob ->
  username <> "" ->
  In (CallUpdateAvatar "avatar.png" "image/png" blob)
     (snd (fire (handleSaveSettings env')
             (setDom (Some username) (Some description)
                (fst (fire (handleSaveSettings env) st))))).
Proof.
  intros Hb Hne.
  assert (Hb' : avatarBlob (setDom (Some username) (Some description)
                              (fst (fire (handleSaveSettings env) st)))
                = Some blob).
  { cbn [avatarBlob setDom].
    rewrite handleSaveSettings_fire. cbv zeta.
    destruct (usernameRef st), (descriptionRef st); try exact Hb.
    destruct (String.eqb _ _); [exact Hb|].
    destruct (_ && _); [exact Hb|].
    destruct (on_updateSettings env _ _); [|exact Hb].
    destruct (JS.truthy _); exact Hb. }
  generalize dependent (fst (fire (handleSaveSettings env) st)).
  intros s Hs.
  apply String.eqb_neq in Hne.
  rewrite handleSaveSettings_fire. cbn [usernameRef descriptionRef setDom].
  rewrite Hne. unfold has_blob. rewrite Hs, !andb_false_r. cbv zeta.
  destruct (on_updateSettings env' username description); cbn; tauto.
Qed.

Lemma saved_avatar_is_uploaded_again_witness :
  In (CallUpdateAvatar "avatar.png" "image/png" [Byte.x89; Byte.x50])
     (snd (fire (handleSaveSettings (profile_env true true))
             (setDom (Some "ann") (Some "hi")
                (fst (fire (handleSaveSettings (profile_env true true))
                        (editing_with_avatar "ann" "hi")))))).
Proof.
  apply (saved_avatar_is_uploaded_again (profile_env true true)
           (profile_env true true) (editing_with_avatar "ann" "hi")
           [Byte.x89; Byte.x50] "ann" "hi").
  - reflexivity.
  - discriminate.
Defined.

(** X21: the settings cog never calls the network.  In viewing mode it
    opens the form silently.  In editing mode with the form equal to the
    snapshot and no avatar pending it closes the form without asking;
    with unsaved changes it asks once, and a declined prompt leaves the
    state as it is.  With the form's inputs not mounted it does
    nothing. *)
Theorem settings_cog_behaviour env st :
  existsb is_network_call (snd (fire (handleReactingWithSettings env) st))
  = false /\
  (isUserChangingSettings st = false ->
   fire (handleReactingWithSettings env) st =
     (setIsUserChangingSettings true st, [])) /\
  (isUserChangingSettings st = true ->
   usernameRef st = None \/ descriptionRef st = None ->
   fire (handleReactingWithSettings env) st = (st, [])) /\
  (forall username description,
     isUserChangingSettings st = true ->
     usernameRef st = Some username ->
     descriptionRef st = Some description ->
     (snapshot_username st = Some username ->
      snapshot_description st = Some description ->
      avatarBlob st = None ->
      fire (handleReactingWithSettings env) st =
        (setIsUserChangingSettings false st, [])) /\
     (snapshot_username st <> Some username \/
      snapshot_description st <> Some description \/
      avatarBlob st <> None ->
      on_confirm env discard_prompt = false ->
      fire (handleReactingWithSettings env) st =
        (st, [Confirm discard_prompt]))).
Proof.
  rewrite handleReactingWithSettings_fire.
  split; [|split; [|split]].
  - split_branches; reflexivity.
  - intros ->. reflexivity.
  - intros -> [H|H]; rewrite H; cbn; [reflexivity|].
    destruct (usernameRef st); reflexivity.
  - intros username description -> -> ->. cbn [negb]. split.
    + intros -> -> Hb. unfold has_blob. rewrite Hb. cbn.
      now rewrite !String.eqb_refl.
    + intros Hchanged Hno.
      assert (Hdirty : JS.strict_eq (Some username) (snapshot_username st)
                && JS.strict_eq (Some description) (snapshot_description st)
                && negb (has_blob st) = false).
      { rewrite !andb_false_iff, negb_false_iff.
        destruct Hchanged as [H|[H|H]].
        - left; left. cbn. destruct (snapshot_username st) as [x|]; auto.
          apply String.eqb_neq. congruence.
        - left; right. cbn. destruct (snapshot_description st) as [x|]; auto.
          apply String.eqb_neq. congruence.
        - right. unfold has_blob. destruct (avatarBlob st); congruence. }
      now rewrite Hdirty, Hno.
Qed.

Lemma settings_cog_behaviour_witness :
  fire (handleReactingWithSettings (profile_env true false))
       (editing "bob" "hi")
  = (editing "bob" "hi", [Confirm discard_prompt]).
Proof.
  apply (proj2 (proj2 (proj2 (settings_cog_behaviour (profile_env true false)
           (editing "bob" "hi")))) "bob" "hi");
    try reflexivity.
  left. discriminate.
Defined.

(** X22: whatever happened to the page since it was mounted, a stored
    snapshot has a username, and that username is not empty. *)
Theorem stored_snapshot_has_a_username st d :
  reachable st ->
  userData st = Some d ->
  exists u, ProfileInterface.username d = Some u /\ u <> "".
Proof.
  intros Hreach Hd. apply reachable_snapshot_named in Hreach.
  unfold snapshot_named in Hreach. rewrite Hd in Hreach.
  destruct (ProfileInterface.username d) as [u|]; [|discriminate].
  exists u. split; [reflexivity|]. intros ->. discriminate.
Qed.

Lemma stored_snapshot_has_a_username_witness :
  exists u, ProfileInterface.username ann_profile = Some u /\ u <> "".
Proof.
  apply (stored_snapshot_has_a_username (editing "bob" "x") ann_profile).
  - unfold editing. repeat apply reachable_step. apply reachable_initial.
  - reflexivity.
Defined.

(** X23: only the Save button writes to the server: no other action calls
    [updateSettings] or [updateAvatar]; and apart from mounting the page
    and saving, no action calls the network at all. *)
Theorem only_save_writes_to_the_server env a st :
  (is_save a = false ->
   existsb is_update_call (snd (fire (handler env a) st)) = false) /\
  (is_fetching a = false ->
   existsb is_network_call (snd (fire (handler env a) st)) = false).
Proof.
  split; intros H; destruct a; try discriminate H; unfold handler;
    try (rewrite fetchData_fire; reflexivity);
    try (rewrite handleReactingWithSettings_fire; split_branches; reflexivity);
    try (run_handler loggedUserDataEffect; destruct (negb _); reflexivity);
    try (run_handler @setState; reflexivity);
    try (run_handler handleAddingContent; reflexivity);
    try (run_handler handleUserChaningAvatar; reflexivity);
    try (run_handler saveAvatarImage; destruct (negb _); cbn;
         [|destruct (on_toBlob env) as [[blob url]|]]; reflexivity);
    try (run_handler uploadAvatar; destruct f as [f|]; [|reflexivity];
         cbn; destruct (_ && _); reflexivity).
Qed.

Lemma only_save_writes_to_the_server_witness :
  existsb is_update_call
    (snd (fire (handler (profile_env true true) ClickSettings)
            (editing_with_avatar "bob" "hi"))) = false.
Proof.
  apply (proj1 (only_save_writes_to_the_server (profile_env true true)
                  ClickSettings (editing_with_avatar "bob" "hi"))).
  reflexivity.
Defined.

(** X24: of the four profile tabs exactly the current one is underlined
    in the highlight colour; a click on a tab has no effect outside,
    changes the current tab only and makes the clicked tab the highlighted
    one. *)
Theorem profile_highlights_current_tab env t st :
  highlighted (currentSite st) = [currentSite st] /\
  fire (handler env (ClickTab t)) st = (setSite t st, []) /\
  highlighted (currentSite (fst (fire (handler env (ClickTab t)) st))) = [t]
  /\ userData (fst (fire (handler env (ClickTab t)) st)) = userData st
  /\ isUserChangingSettings (fst (fire (handler env (ClickTab t)) st))
     = isUserChangingSettings st.
Proof.
  assert (H : forall c, highlighted c = [c]).
  { intros c. destruct c; vm_compute; reflexivity. }
  split; [apply H|]. split; [reflexivity|]. split; [apply H|].
  split; reflexivity.
Qed.

End ProfileSpec.
